(** * AWS Batch job queue resource: a shallow embedding

    Source: [aws/resource_aws_batch_job_queue.go].

    The resource functions are translated into a small state-and-error
    monad.  The state holds the remote API world, the log of API calls
    issued so far, the [*schema.ResourceData] object the functions mutate
    and the log of the writes attempted on it.  An outcome is a normal return, an [error] return or a Go
    run-time panic. *)

From Stdlib Require Import ZArith Lia.
From stdpp Require Import base strings list gmap sorting.

Open Scope string_scope.

(** ** Go values held in an [interface{}] *)

(** Scalars.  Go's [int] and [int64] are different dynamic types: a type
    assertion to one fails on a value of the other. *)
Inductive scalar :=
| SNil
| SInt (n : Z)
| SInt64 (n : Z)
| SString (s : string).

(** An element of a [[]interface{}]. *)
Inductive elem :=
| EScalar (s : scalar)
| EMap (m : gmap string scalar).

Inductive value :=
| VScalar (s : scalar)
| VStrings (l : list string)
| VList (l : list elem)
| VMap (m : gmap string scalar).

#[global] Instance scalar_eq_dec : EqDecision scalar.
Proof. solve_decision. Defined.
#[global] Instance elem_eq_dec : EqDecision elem.
Proof. solve_decision. Defined.
#[global] Instance value_eq_dec : EqDecision value.
Proof. solve_decision. Defined.

Definition VNil : value := VScalar SNil.
Definition VInt (n : Z) : value := VScalar (SInt n).
Definition VInt64 (n : Z) : value := VScalar (SInt64 n).
Definition VString (s : string) : value := VScalar (SString s).

(** ** Errors

    Every [fmt.Errorf] of the source is a constructor that keeps the wrapped
    error and the interpolated name; the remaining constructors are the
    errors produced outside the file. *)
Inductive error :=
| ErrAPI (msg : string)
| ErrInvalidAddress (key : string)
| ErrSetValue (key : string)
| ErrTimeout
| ErrUnexpectedState (status : string)
| ErrCreate (cause : error) (name : string)
| ErrWaitValid (cause : error)
| ErrSetComputeEnvironments (cause : error)
| ErrSetTags (cause : error)
| ErrSetTagsAll (cause : error)
| ErrUpdateTags (cause : error)
| ErrDisabling (name : string) (cause : error)
| ErrDeleting (name : string) (cause : error)
| ErrMultiple (name : string).

Inductive outcome (A : Type) :=
| Ok (a : A)
| Err (e : error)
| Panic (msg : string).
Arguments Ok {A} a.
Arguments Err {A} e.
Arguments Panic {A} msg.

(** ** The resource schema (lines 31-71) *)

Inductive ValueType := TypeInt | TypeString | TypeList | TypeMap.

Definition Schema : gmap string ValueType :=
  list_to_map
    [ ("compute_environment_order", TypeList);
      ("name", TypeString);
      ("priority", TypeInt);
      ("state", TypeString);
      ("tags", TypeMap);
      ("tags_all", TypeMap);
      ("arn", TypeString) ].

(** The nested schema of one [compute_environment_order] block. *)
Definition ElemSchema : gmap string ValueType :=
  list_to_map [ ("compute_environment", TypeString); ("order", TypeInt) ].

Definition MaxItems : nat := 3.

(** ** String constants of the AWS SDK's [batch] package *)

Definition JQStateDisabled := "DISABLED".
Definition JQStateEnabled := "ENABLED".
Definition JQStatusCreating := "CREATING".
Definition JQStatusUpdating := "UPDATING".
Definition JQStatusDeleting := "DELETING".
Definition JQStatusDeleted := "DELETED".
Definition JQStatusValid := "VALID".
Definition JQStatusInvalid := "INVALID".

(** The lifecycle statuses the API reports for a job queue. *)
Definition JQStatus_Values : list string :=
  [ JQStatusCreating; JQStatusUpdating; JQStatusDeleting;
    JQStatusDeleted; JQStatusValid; JQStatusInvalid ].

(** [time.Duration] counts nanoseconds. *)
Definition Second : Z := 1000000000.
Definition Minute : Z := 60 * Second.

(** ** API request and response shapes

    Pointer fields ([*string], [*int64]) are options. *)

Record ComputeEnvironmentOrder := {
  ceo_Order : option Z;
  ceo_ComputeEnvironment : option string
}.

Record CreateJobQueueInput := {
  cjq_ComputeEnvironmentOrder : list ComputeEnvironmentOrder;
  cjq_JobQueueName : option string;
  cjq_Priority : option Z;
  cjq_State : option string;
  cjq_Tags : option (gmap string string)
}.

Record UpdateJobQueueInput := {
  ujq_ComputeEnvironmentOrder : list ComputeEnvironmentOrder;
  ujq_JobQueue : option string;
  ujq_Priority : option Z;
  ujq_State : option string
}.

Record JobQueueDetail := {
  jq_JobQueueArn : option string;
  jq_JobQueueName : option string;
  jq_ComputeEnvironmentOrder : list ComputeEnvironmentOrder;
  jq_Priority : option Z;
  jq_State : option string;
  jq_Status : option string;
  jq_Tags : gmap string string
}.

(** [aws.StringValue] and [aws.Int64Value]: the zero value for [nil]. *)
Definition StringValue (p : option string) : string := default "" p.
Definition Int64Value (p : option Z) : Z := default 0%Z p.

(** The AWS Batch client and the tag-update helper that talks to it, as
    transitions of an abstract remote world [W]. *)
Record BatchAPI (W : Type) := {
  api_CreateJobQueue :
    CreateJobQueueInput -> W -> (error + option string) * W;
  api_UpdateJobQueue : UpdateJobQueueInput -> W -> option error * W;
  api_DeleteJobQueue : string -> W -> option error * W;
  api_DescribeJobQueues :
    list string -> W -> (error + list JobQueueDetail) * W;
  api_UpdateTags : string -> value -> value -> W -> option error * W
}.
Arguments api_CreateJobQueue {W} _ _ _.
Arguments api_UpdateJobQueue {W} _ _ _.
Arguments api_DeleteJobQueue {W} _ _ _.
Arguments api_DescribeJobQueues {W} _ _ _.
Arguments api_UpdateTags {W} _ _ _ _ _.

(** One entry of the call log: the request and what the API answered. *)
Inductive Event :=
| EvCreateJobQueue (i : CreateJobQueueInput) (r : error + option string)
| EvUpdateJobQueue (i : UpdateJobQueueInput) (r : option error)
| EvDeleteJobQueue (name : string) (r : option error)
| EvDescribeJobQueues (names : list string) (r : error + list JobQueueDetail)
| EvUpdateTags (arn : string) (o n : value) (r : option error).

Definition isUpdateJobQueue (ev : Event) : bool :=
  match ev with EvUpdateJobQueue _ _ => true | _ => false end.
Definition isDeleteJobQueue (ev : Event) : bool :=
  match ev with EvDeleteJobQueue _ _ => true | _ => false end.

(** ** The framework's resource data

    [*schema.ResourceData] of the plugin framework (an external library):
    the prior state, the planned values (prior state with the diff applied)
    and the values written by [Set] during the operation.  [Get] reads the
    written values first and the planned ones next; [GetChange] compares
    the prior state with the plan; a key the schema does not declare reads
    as [nil] everywhere, and [Set] refuses it with an invalid-address
    error. *)
Record ResourceData := {
  rd_id : string;
  rd_state : gmap string value;
  rd_plan : gmap string value;
  rd_set : gmap string value
}.

Definition zeroValue (t : ValueType) : value :=
  match t with
  | TypeInt => VInt 0
  | TypeString => VString ""
  | TypeList => VList []
  | TypeMap => VMap ∅
  end.

Definition rd_Get (key : string) (d : ResourceData) : value :=
  match Schema !! key with
  | None => VNil
  | Some t =>
      match rd_set d !! key with
      | Some v => v
      | None => default (zeroValue t) (rd_plan d !! key)
      end
  end.

Definition rd_GetChange (key : string) (d : ResourceData) : value * value :=
  match Schema !! key with
  | None => (VNil, VNil)
  | Some t =>
      (default (zeroValue t) (rd_state d !! key),
       default (zeroValue t) (rd_plan d !! key))
  end.

Definition rd_HasChange (key : string) (d : ResourceData) : bool :=
  let '(o, n) := rd_GetChange key d in negb (bool_decide (o = n)).

Definition rd_HasChanges (keys : list string) (d : ResourceData) : bool :=
  existsb (fun key => rd_HasChange key d) keys.

(** What the state writer stores for a value of the attribute's type: an
    [int64] is stored as the [int] a [TypeInt] reads back as, a [nil]
    pointer as the zero value, a [[]string] as a list of strings. *)
Definition writeAs (t : ValueType) (v : value) : option value :=
  match t, v with
  | _, VScalar SNil => Some (zeroValue t)
  | TypeInt, VScalar (SInt n) => Some (VInt n)
  | TypeInt, VScalar (SInt64 n) => Some (VInt n)
  | TypeString, VScalar (SString s) => Some (VString s)
  | TypeList, VList l => Some (VList l)
  | TypeList, VStrings l => Some (VList ((fun s => EScalar (SString s)) <$> l))
  | TypeMap, VMap m => Some (VMap m)
  | _, _ => None
  end.

Definition rd_Set (key : string) (v : value) (d : ResourceData)
  : option error * ResourceData :=
  match Schema !! key with
  | None => (Some (ErrInvalidAddress key), d)
  | Some t =>
      match writeAs t v with
      | None => (Some (ErrSetValue key), d)
      | Some v' =>
          (None,
           {| rd_id := rd_id d; rd_state := rd_state d; rd_plan := rd_plan d;
              rd_set := <[key := v']> (rd_set d) |})
      end
  end.

Definition rd_SetId (id : string) (d : ResourceData) : ResourceData :=
  {| rd_id := id; rd_state := rd_state d; rd_plan := rd_plan d;
     rd_set := rd_set d |}.

(** ** Tag helpers

    The [keyvaluetags] package is taken as given: its operations are the
    fields of this record, over tag maps from key to value. *)
Record TagOps (DefaultConfig IgnoreConfig : Type) := {
  kvt_New : gmap string scalar -> gmap string string;
  kvt_MergeTags : DefaultConfig -> gmap string string -> gmap string string;
  kvt_IgnoreAws : gmap string string -> gmap string string;
  kvt_IgnoreConfig : IgnoreConfig -> gmap string string -> gmap string string;
  kvt_RemoveDefaultConfig :
    DefaultConfig -> gmap string string -> gmap string string;
  kvt_BatchTags : gmap string string -> gmap string string;
  kvt_BatchKeyValueTags : gmap string string -> gmap string string;
  kvt_Map : gmap string string -> gmap string string
}.
Arguments kvt_New {_ _} _ _.
Arguments kvt_MergeTags {_ _} _ _ _.
Arguments kvt_IgnoreAws {_ _} _ _.
Arguments kvt_IgnoreConfig {_ _} _ _ _.
Arguments kvt_RemoveDefaultConfig {_ _} _ _ _.
Arguments kvt_BatchTags {_ _} _ _.
Arguments kvt_BatchKeyValueTags {_ _} _ _.
Arguments kvt_Map {_ _} _ _.

(** A [map[string]string] handed to [Set]. *)
Definition stringMapValue (m : gmap string string) : value :=
  VMap (SString <$> m).

(** A [*string] or [*int64] handed to [Set]. *)
Definition stringPtrValue (p : option string) : value :=
  match p with Some s => VString s | None => VNil end.
Definition int64PtrValue (p : option Z) : value :=
  match p with Some n => VInt64 n | None => VNil end.

(** ** Type assertions *)

Definition assertString (v : value) : outcome string :=
  match v with
  | VScalar (SString s) => Ok s
  | _ => Panic "interface conversion: interface {} is not string"
  end.

Definition assertInt (v : value) : outcome Z :=
  match v with
  | VScalar (SInt n) => Ok n
  | _ => Panic "interface conversion: interface {} is not int"
  end.

Definition assertList (v : value) : outcome (list elem) :=
  match v with
  | VList l => Ok l
  | _ => Panic "interface conversion: interface {} is not []interface {}"
  end.

Definition assertMap (v : value) : outcome (gmap string scalar) :=
  match v with
  | VMap m => Ok m
  | _ => Panic "interface conversion: interface {} is not map[string]interface {}"
  end.

(** [m[key].(int64)] and [m[key].(string)]: a missing key reads as [nil],
    on which every assertion fails. *)
Definition assertInt64At (m : gmap string scalar) (key : string) : outcome Z :=
  match m !! key with
  | Some (SInt64 n) => Ok n
  | _ => Panic "interface conversion: interface {} is not int64"
  end.

Definition assertStringAt (m : gmap string scalar) (key : string)
  : outcome string :=
  match m !! key with
  | Some (SString s) => Ok s
  | _ => Panic "interface conversion: interface {} is not string"
  end.

Definition obind {A B} (o : outcome A) (k : A -> outcome B) : outcome B :=
  match o with
  | Ok a => k a
  | Err e => Err e
  | Panic msg => Panic msg
  end.

(** ** [createComputeEnvironmentOrder] (lines 229-238) *)

Definition createComputeEnvironmentOrder_entry (env : elem)
  : outcome ComputeEnvironmentOrder :=
  match env with
  | EMap m =>
      obind (assertInt64At m "order") (fun o =>
      obind (assertStringAt m "compute_environment") (fun ce =>
      Ok {| ceo_Order := Some o; ceo_ComputeEnvironment := Some ce |}))
  | EScalar _ =>
      Panic "interface conversion: interface {} is not map[string]interface {}"
  end.

Fixpoint createComputeEnvironmentOrder_from
    (envs : list ComputeEnvironmentOrder) (order : list elem)
  : outcome (list ComputeEnvironmentOrder) :=
  match order with
  | [] => Ok envs
  | env :: rest =>
      obind (createComputeEnvironmentOrder_entry env) (fun e =>
      createComputeEnvironmentOrder_from (envs ++ [e]) rest)
  end.

Definition createComputeEnvironmentOrder (order : list elem)
  : outcome (list ComputeEnvironmentOrder) :=
  createComputeEnvironmentOrder_from [] order.

(** ** [sort.Slice] with the comparison of lines 138-140

    On slices shorter than twelve elements [sort.Slice] runs an insertion
    sort: each element moves left while it is less than its left
    neighbour.  [bubble] works on the sorted prefix in reverse. *)
Definition lessOrder (a b : ComputeEnvironmentOrder) : bool :=
  (Int64Value (ceo_Order a) <? Int64Value (ceo_Order b))%Z.

Fixpoint bubble (x : ComputeEnvironmentOrder)
    (rprefix : list ComputeEnvironmentOrder) : list ComputeEnvironmentOrder :=
  match rprefix with
  | [] => [x]
  | y :: rest => if lessOrder x y then y :: bubble x rest else x :: y :: rest
  end.

Definition sortSlice (l : list ComputeEnvironmentOrder)
  : list ComputeEnvironmentOrder :=
  rev (fold_left (fun rprefix x => bubble x rprefix) l []).

(** ** Provider handle and the monad of the resource functions *)

Record AWSClient (W DefaultConfig IgnoreConfig : Type) := {
  batchconn : BatchAPI W;
  DefaultTagsConfig : DefaultConfig;
  IgnoreTagsConfig : IgnoreConfig
}.
Arguments batchconn {_ _ _} _.
Arguments DefaultTagsConfig {_ _ _} _.
Arguments IgnoreTagsConfig {_ _ _} _.

(** [trace] logs the API calls and [sets] the calls of [d.Set] (key and
    value handed over), both oldest first. *)
Record St (W : Type) := {
  world : W;
  trace : list Event;
  rd : ResourceData;
  sets : list (string * value)
}.
Arguments world {W} _.
Arguments trace {W} _.
Arguments rd {W} _.
Arguments sets {W} _.

Definition M (W A : Type) : Type := St W -> outcome A * St W.

(** What a [StateRefreshFunc] hands back as its first result. *)
Inductive RefreshResult :=
| RNil
| RInt (n : Z)
| RQueue (q : JobQueueDetail).

(** [resource.StateChangeConf]. *)
Record StateChangeConf (W : Type) := {
  Pending : list string;
  Target : list string;
  Refresh : M W (RefreshResult * string * option error);
  Timeout : Z;
  Delay : Z;
  MinTimeout : Z
}.
Arguments Pending {W} _.
Arguments Target {W} _.
Arguments Refresh {W} _.
Arguments Timeout {W} _.
Arguments Delay {W} _.
Arguments MinTimeout {W} _.

Section Monad.
Context {W : Type}.

Definition ret {A} (a : A) : M W A := fun s => (Ok a, s).

Definition bind {A B} (c : M W A) (k : A -> M W B) : M W B :=
  fun s =>
    match c s with
    | (Ok a, s') => k a s'
    | (Err e, s') => (Err e, s')
    | (Panic msg, s') => (Panic msg, s')
    end.

Definition lift {A} (o : outcome A) : M W A := fun s => (o, s).

Definition failWith {A} (e : error) : M W A := fun s => (Err e, s).

(** [if err != nil { return wrap(err) }] around a call. *)
Definition wrapErr {A} (wrap : error -> error) (c : M W A) : M W A :=
  fun s =>
    match c s with
    | (Err e, s') => (Err (wrap e), s')
    | r => r
    end.

Definition withRd (f : ResourceData -> ResourceData) (s : St W) : St W :=
  {| world := world s; trace := trace s; rd := f (rd s); sets := sets s |}.

Definition d_Id : M W string := fun s => (Ok (rd_id (rd s)), s).

Definition d_SetId (id : string) : M W unit :=
  fun s => (Ok tt, withRd (rd_SetId id) s).

Definition d_Get (key : string) : M W value :=
  fun s => (Ok (rd_Get key (rd s)), s).

Definition d_GetChange (key : string) : M W (value * value) :=
  fun s => (Ok (rd_GetChange key (rd s)), s).

Definition d_HasChange (key : string) : M W bool :=
  fun s => (Ok (rd_HasChange key (rd s)), s).

Definition d_HasChanges (keys : list string) : M W bool :=
  fun s => (Ok (rd_HasChanges keys (rd s)), s).

Definition d_Set (key : string) (v : value) : M W (option error) :=
  fun s =>
    let '(e, d') := rd_Set key v (rd s) in
    (Ok e,
     {| world := world s; trace := trace s; rd := d';
        sets := sets s ++ [(key, v)] |}).

Definition logCall (w : W) (ev : Event) (s : St W) : St W :=
  {| world := w; trace := trace s ++ [ev]; rd := rd s; sets := sets s |}.

Definition CreateJobQueue (conn : BatchAPI W) (input : CreateJobQueueInput)
  : M W (error + option string) :=
  fun s =>
    let '(r, w) := api_CreateJobQueue conn input (world s) in
    (Ok r, logCall w (EvCreateJobQueue input r) s).

Definition UpdateJobQueue (conn : BatchAPI W) (input : UpdateJobQueueInput)
  : M W (option error) :=
  fun s =>
    let '(r, w) := api_UpdateJobQueue conn input (world s) in
    (Ok r, logCall w (EvUpdateJobQueue input r) s).

Definition DeleteJobQueue (conn : BatchAPI W) (jobQueue : string)
  : M W (option error) :=
  fun s =>
    let '(r, w) := api_DeleteJobQueue conn jobQueue (world s) in
    (Ok r, logCall w (EvDeleteJobQueue jobQueue r) s).

Definition DescribeJobQueues (conn : BatchAPI W) (names : list string)
  : M W (error + list JobQueueDetail) :=
  fun s =>
    let '(r, w) := api_DescribeJobQueues conn names (world s) in
    (Ok r, logCall w (EvDescribeJobQueues names r) s).

Definition BatchUpdateTags (conn : BatchAPI W) (arn : string) (o n : value)
  : M W (option error) :=
  fun s =>
    let '(r, w) := api_UpdateTags conn arn o n (world s) in
    (Ok r, logCall w (EvUpdateTags arn o n r) s).
End Monad.

Declare Scope go_scope.
Delimit Scope go_scope with go.
Notation "x <~ c ; k" := (bind c (fun x => k))
  (at level 20, c at level 100, k at level 200, only parsing)
  : go_scope.
Notation "' pat <~ c ; k" := (bind c (fun pat => k))
  (at level 20, pat pattern, c at level 100, k at level 200, only parsing)
  : go_scope.
Open Scope go_scope.

(** ** The status poller

    Modelled from the spec: [WaitForState] of the plugin framework, which
    the file calls and does not define.  It fetches the status until it
    matches a target (success), until a status that is neither pending nor
    a target appears (failure), until the fetch reports an error (failure)
    or until the timeout elapses (failure).  Time is not modelled:
    [budget] is the number of fetches the conf's timing allows before the
    timeout. *)
Section Poller.
Context {W : Type}.

Definition inStatuses (s : string) (l : list string) : bool :=
  bool_decide (s ∈ l).

Fixpoint waitLoop (conf : StateChangeConf W) (budget : nat)
  : M W RefreshResult :=
  match budget with
  | O => failWith ErrTimeout
  | S budget' =>
      r <~ Refresh conf ;
      match r with
      | (_, _, Some err) => failWith err
      | (res, currentState, None) =>
          if inStatuses currentState (Target conf) then ret res
          else if inStatuses currentState (Pending conf)
               then waitLoop conf budget'
               else failWith (ErrUnexpectedState currentState)
      end
  end.

Definition WaitForState (pollBudget : Z -> Z -> Z -> nat)
    (conf : StateChangeConf W) : M W RefreshResult :=
  waitLoop conf (pollBudget (Timeout conf) (Delay conf) (MinTimeout conf)).
End Poller.

(** ** The resource functions *)

Section Resource.
Context {W DefaultConfig IgnoreConfig : Type}.
Variable tagops : TagOps DefaultConfig IgnoreConfig.
Variable pollBudget : Z -> Z -> Z -> nat.

(** [getJobQueue] (lines 282-302). *)
Definition getJobQueue (conn : BatchAPI W) (sn : string)
  : M W (option JobQueueDetail) :=
  resp <~ DescribeJobQueues conn [sn] ;
  match resp with
  | inl err => failWith err
  | inr queues =>
      let numJobQueues := length queues in
      if (numJobQueues =? 0)%nat then ret None
      else if (numJobQueues =? 1)%nat then
        match queues !! 0%nat with
        | Some q => ret (Some q)
        | None => lift (Panic "index out of range")
        end
      else if (1 <? numJobQueues)%nat then failWith (ErrMultiple sn)
      else ret None
  end.

(** [batchJobQueueRefreshStatusFunc] (lines 304-315). *)
Definition batchJobQueueRefreshStatusFunc (conn : BatchAPI W) (sn : string)
  : M W (RefreshResult * string * option error) :=
  fun s =>
    match getJobQueue conn sn s with
    | (Err err, s') => (Ok (RNil, "failed", Some err), s')
    | (Panic msg, s') => (Panic msg, s')
    | (Ok None, s') => (Ok (RInt 42, JQStatusDeleted, None), s')
    | (Ok (Some ce), s') =>
        match jq_Status ce with
        | Some status => (Ok (RQueue ce, status, None), s')
        | None => (Panic "nil pointer dereference", s')
        end
    end.

(** The three poll configurations of the file. *)
Definition createStateConf (conn : BatchAPI W) (name : string)
  : StateChangeConf W :=
  {| Pending := [JQStatusCreating; JQStatusUpdating];
     Target := [JQStatusValid];
     Refresh := batchJobQueueRefreshStatusFunc conn name;
     Timeout := 10 * Minute;
     Delay := 10 * Second;
     MinTimeout := 3 * Second |}.

Definition updateStateConf (conn : BatchAPI W) (name : string)
  : StateChangeConf W :=
  {| Pending := [JQStatusUpdating];
     Target := [JQStatusValid];
     Refresh := batchJobQueueRefreshStatusFunc conn name;
     Timeout := 10 * Minute;
     Delay := 10 * Second;
     MinTimeout := 3 * Second |}.

Definition deleteStateConf (conn : BatchAPI W) (jobQueue : string)
  : StateChangeConf W :=
  {| Pending := [JQStateDisabled; JQStatusDeleting];
     Target := [JQStatusDeleted];
     Refresh := batchJobQueueRefreshStatusFunc conn jobQueue;
     Timeout := 10 * Minute;
     Delay := 10 * Second;
     MinTimeout := 3 * Second |}.

(** [resourceAwsBatchJobQueueRead] (lines 119-166). *)
Definition resourceAwsBatchJobQueueRead (meta : AWSClient W DefaultConfig IgnoreConfig) : M W unit :=
  let conn := batchconn meta in
  let defaultTagsConfig := DefaultTagsConfig meta in
  let ignoreTagsConfig := IgnoreTagsConfig meta in
  id <~ d_Id ;
  found <~ getJobQueue conn id ;
  match found with
  | None => d_SetId ""
  | Some jq =>
      '_ <~ d_Set "arn" (stringPtrValue (jq_JobQueueArn jq)) ;
      let sorted := sortSlice (jq_ComputeEnvironmentOrder jq) in
      let computeEnvironments :=
        (fun o => StringValue (ceo_ComputeEnvironment o)) <$> sorted in
      err <~ d_Set "compute_environments" (VStrings computeEnvironments) ;
      match err with
      | Some e => failWith (ErrSetComputeEnvironments e)
      | None =>
          '_ <~ d_Set "name" (stringPtrValue (jq_JobQueueName jq)) ;
          '_ <~ d_Set "priority" (int64PtrValue (jq_Priority jq)) ;
          '_ <~ d_Set "state" (stringPtrValue (jq_State jq)) ;
          let tags :=
            kvt_IgnoreConfig tagops ignoreTagsConfig
              (kvt_IgnoreAws tagops
                 (kvt_BatchKeyValueTags tagops (jq_Tags jq))) in
          err <~ d_Set "tags"
                   (stringMapValue
                      (kvt_Map tagops
                         (kvt_RemoveDefaultConfig tagops defaultTagsConfig
                            tags))) ;
          match err with
          | Some e => failWith (ErrSetTags e)
          | None =>
              err <~ d_Set "tags_all" (stringMapValue (kvt_Map tagops tags)) ;
              match err with
              | Some e => failWith (ErrSetTagsAll e)
              | None => ret tt
              end
          end
      end
  end.

(** The struct literal of lines 82-90, with [len(tags) > 0] as the size
    of the merged tag map. *)
Definition createJobQueueInput (meta : AWSClient W DefaultConfig IgnoreConfig) (d : ResourceData)
  : outcome CreateJobQueueInput :=
  let defaultTagsConfig := DefaultTagsConfig meta in
  obind (assertMap (rd_Get "tags" d)) (fun tagMap =>
  let tags := kvt_MergeTags tagops defaultTagsConfig (kvt_New tagops tagMap) in
  obind (assertList (rd_Get "compute_environment_order" d)) (fun order =>
  obind (createComputeEnvironmentOrder order) (fun envs =>
  obind (assertString (rd_Get "name" d)) (fun name =>
  obind (assertInt (rd_Get "priority" d)) (fun priority =>
  obind (assertString (rd_Get "state" d)) (fun state =>
  Ok {| cjq_ComputeEnvironmentOrder := envs;
        cjq_JobQueueName := Some name;
        cjq_Priority := Some priority;
        cjq_State := Some state;
        cjq_Tags :=
          if (0 <? size tags)%nat
          then Some (kvt_BatchTags tagops (kvt_IgnoreAws tagops tags))
          else None |})))))).

(** [resourceAwsBatchJobQueueCreate] (lines 77-117). *)
Definition resourceAwsBatchJobQueueCreate (meta : AWSClient W DefaultConfig IgnoreConfig) : M W unit :=
  let conn := batchconn meta in
  input <~ (fun s => (createJobQueueInput meta (rd s), s)) ;
  v <~ d_Get "name" ;
  name <~ lift (assertString v) ;
  out <~ CreateJobQueue conn input ;
  match out with
  | inl err => failWith (ErrCreate err name)
  | inr jobQueueArn =>
      '_ <~ wrapErr ErrWaitValid
             (WaitForState pollBudget (createStateConf conn name)) ;
      let arn := StringValue jobQueueArn in
      '_ <~ d_SetId arn ;
      resourceAwsBatchJobQueueRead meta
  end.

(** The struct literal of lines 174-179. *)
Definition updateJobQueueInput (name : string) (d : ResourceData)
  : outcome UpdateJobQueueInput :=
  obind (assertList (rd_Get "compute_environment_order" d)) (fun order =>
  obind (createComputeEnvironmentOrder order) (fun envs =>
  obind (assertInt (rd_Get "priority" d)) (fun priority =>
  obind (assertString (rd_Get "state" d)) (fun state =>
  Ok {| ujq_ComputeEnvironmentOrder := envs;
        ujq_JobQueue := Some name;
        ujq_Priority := Some priority;
        ujq_State := Some state |})))).

(** [resourceAwsBatchJobQueueUpdate] (lines 168-208). *)
Definition resourceAwsBatchJobQueueUpdate (meta : AWSClient W DefaultConfig IgnoreConfig) : M W unit :=
  let conn := batchconn meta in
  changed <~ d_HasChanges ["compute_environments"; "priority"; "state"] ;
  '_ <~ (if changed : bool then
     v <~ d_Get "name" ;
     name <~ lift (assertString v) ;
     updateInput <~ (fun s => (updateJobQueueInput name (rd s), s)) ;
     err <~ UpdateJobQueue conn updateInput ;
     match err with
     | Some e => failWith e
     | None =>
         '_ <~ WaitForState pollBudget (updateStateConf conn name) ;
         ret tt
     end
        else ret tt) ;
  tagsChanged <~ d_HasChange "tags_all" ;
  '_ <~ (if tagsChanged : bool then
     '(o, n) <~ d_GetChange "tags_all" ;
     v <~ d_Get "arn" ;
     arn <~ lift (assertString v) ;
     err <~ BatchUpdateTags conn arn o n ;
     match err with
     | Some e => failWith (ErrUpdateTags e)
     | None => ret tt
     end
        else ret tt) ;
  resourceAwsBatchJobQueueRead meta.

(** [disableBatchJobQueue] (lines 261-280). *)
Definition disableInput (jobQueue : string) : UpdateJobQueueInput :=
  {| ujq_ComputeEnvironmentOrder := [];
     ujq_JobQueue := Some jobQueue;
     ujq_Priority := None;
     ujq_State := Some JQStateDisabled |}.

Definition disableBatchJobQueue (jobQueue : string) (conn : BatchAPI W)
  : M W unit :=
  err <~ UpdateJobQueue conn (disableInput jobQueue) ;
  match err with
  | Some e => failWith e
  | None =>
      '_ <~ WaitForState pollBudget (updateStateConf conn jobQueue) ;
      ret tt
  end.

(** [deleteBatchJobQueue] (lines 240-259). *)
Definition deleteBatchJobQueue (jobQueue : string) (conn : BatchAPI W)
  : M W unit :=
  err <~ DeleteJobQueue conn jobQueue ;
  match err with
  | Some e => failWith e
  | None =>
      '_ <~ WaitForState pollBudget (deleteStateConf conn jobQueue) ;
      ret tt
  end.

(** [resourceAwsBatchJobQueueDelete] (lines 210-227). *)
Definition resourceAwsBatchJobQueueDelete (meta : AWSClient W DefaultConfig IgnoreConfig) : M W unit :=
  let conn := batchconn meta in
  v <~ d_Get "name" ;
  name <~ lift (assertString v) ;
  '_ <~ wrapErr (ErrDisabling name) (disableBatchJobQueue name conn) ;
  wrapErr (ErrDeleting name) (deleteBatchJobQueue name conn).

(** The importer's [State] function (lines 25-28). *)
Definition resourceAwsBatchJobQueueImport : M W unit :=
  id <~ d_Id ;
  '_ <~ d_Set "arn" (VString id) ;
  ret tt.

End Resource.

(** ** A reference client

    An in-memory job-queue service that stores what it is sent and reports
    every stored queue with the status [status].  It gives the concrete
    runs of the examples below. *)
Module Fake.

Definition named (names : list string) (q : JobQueueDetail) : bool :=
  bool_decide (StringValue (jq_JobQueueName q) ∈ names)
  || bool_decide (StringValue (jq_JobQueueArn q) ∈ names).

Definition arnOf (name : string) : string := "arn:aws:batch:::job-queue/" ++ name.

Definition create (status : string) (i : CreateJobQueueInput)
    (w : list JobQueueDetail) : (error + option string) * list JobQueueDetail :=
  let name := StringValue (cjq_JobQueueName i) in
  if existsb (named [name]) w
  then (inl (ErrAPI "ClientException: Object already exists"), w)
  else (inr (Some (arnOf name)),
        (w ++ [ {| jq_JobQueueArn := Some (arnOf name);
                  jq_JobQueueName := Some name;
                  jq_ComputeEnvironmentOrder := cjq_ComputeEnvironmentOrder i;
                  jq_Priority := cjq_Priority i;
                  jq_State := cjq_State i;
                  jq_Status := Some status;
                  jq_Tags := default ∅ (cjq_Tags i) |} ])%list).

Definition updated (i : UpdateJobQueueInput) (q : JobQueueDetail)
  : JobQueueDetail :=
  if named [StringValue (ujq_JobQueue i)] q
  then {| jq_JobQueueArn := jq_JobQueueArn q;
          jq_JobQueueName := jq_JobQueueName q;
          jq_ComputeEnvironmentOrder :=
            match ujq_ComputeEnvironmentOrder i with
            | [] => jq_ComputeEnvironmentOrder q
            | l => l
            end;
          jq_Priority :=
            match ujq_Priority i with
            | Some p => Some p
            | None => jq_Priority q
            end;
          jq_State :=
            match ujq_State i with
            | Some s => Some s
            | None => jq_State q
            end;
          jq_Status := jq_Status q;
          jq_Tags := jq_Tags q |}
  else q.

Definition update (i : UpdateJobQueueInput) (w : list JobQueueDetail)
  : option error * list JobQueueDetail :=
  if existsb (named [StringValue (ujq_JobQueue i)]) w
  then (None, updated i <$> w)
  else (Some (ErrAPI "ClientException: queue does not exist"), w).

Definition delete (name : string) (w : list JobQueueDetail)
  : option error * list JobQueueDetail :=
  (None, filter (fun q => negb (named [name] q)) w).

Definition describe (names : list string) (w : list JobQueueDetail)
  : (error + list JobQueueDetail) * list JobQueueDetail :=
  (inr (filter (fun q => named names q) w), w).

Definition updateTags (arn : string) (o n : value) (w : list JobQueueDetail)
  : option error * list JobQueueDetail := (None, w).

Definition conn (status : string) : BatchAPI (list JobQueueDetail) :=
  {| api_CreateJobQueue := create status;
     api_UpdateJobQueue := update;
     api_DeleteJobQueue := delete;
     api_DescribeJobQueues := describe;
     api_UpdateTags := updateTags |}.

Definition stringTag (s : scalar) : option string :=
  match s with SString x => Some x | _ => None end.

(** Tag helpers with no default tags and nothing ignored. *)
Definition tagops : TagOps unit unit :=
  {| kvt_New := omap stringTag;
     kvt_MergeTags := fun _ t => t;
     kvt_IgnoreAws := fun t => t;
     kvt_IgnoreConfig := fun _ t => t;
     kvt_RemoveDefaultConfig := fun _ t => t;
     kvt_BatchTags := fun t => t;
     kvt_BatchKeyValueTags := fun t => t;
     kvt_Map := fun t => t |}.

Definition meta (status : string) : AWSClient (list JobQueueDetail) unit unit :=
  {| batchconn := conn status;
     DefaultTagsConfig := tt;
     IgnoreTagsConfig := tt |}.

(** A block of [compute_environment_order] as the schema layer stores it:
    the order is an [int]. *)
Definition block (ce : string) (order : Z) : elem :=
  EMap (<["compute_environment" := SString ce]> {["order" := SInt order]}).

Definition attrs (name : string) (priority : Z) (state : string)
    (order : list elem) : gmap string value :=
  list_to_map
    [ ("name", VString name); ("priority", VInt priority);
      ("state", VString state); ("compute_environment_order", VList order) ].

(** Resource data of a fresh resource: no prior state, [plan] planned. *)
Definition fresh (plan : gmap string value) : ResourceData :=
  {| rd_id := ""; rd_state := ∅; rd_plan := plan; rd_set := ∅ |}.

Definition start (w : list JobQueueDetail) (d : ResourceData)
  : St (list JobQueueDetail) :=
  {| world := w; trace := []; rd := d; sets := [] |}.

(** A budget of [n] status fetches, whatever the timing. *)
Definition polls (n : nat) : Z -> Z -> Z -> nat := fun _ _ _ => n.

(** The queue of the scenario: [q1], priority 1, enabled, environment
    [a] with order 1 listed before environment [b] with order 0. *)
Definition q1_blocks : list elem := [block "a" 1; block "b" 0].

Definition q1_order : list ComputeEnvironmentOrder :=
  [ {| ceo_Order := Some 1%Z; ceo_ComputeEnvironment := Some "a" |};
    {| ceo_Order := Some 0%Z; ceo_ComputeEnvironment := Some "b" |} ].

Definition q1_detail : JobQueueDetail :=
  {| jq_JobQueueArn := Some (arnOf "q1");
     jq_JobQueueName := Some "q1";
     jq_ComputeEnvironmentOrder := q1_order;
     jq_Priority := Some 1%Z;
     jq_State := Some JQStateEnabled;
     jq_Status := Some JQStatusValid;
     jq_Tags := ∅ |}.

(** Before Create. *)
Definition q1_planned : ResourceData :=
  fresh (attrs "q1" 1 JQStateEnabled q1_blocks).

(** Tracked in the state, nothing planned. *)
Definition q1_stored : ResourceData :=
  {| rd_id := arnOf "q1";
     rd_state := <["arn" := VString (arnOf "q1")]>
                   (attrs "q1" 1 JQStateEnabled q1_blocks);
     rd_plan := <["arn" := VString (arnOf "q1")]>
                  (attrs "q1" 1 JQStateEnabled q1_blocks);
     rd_set := ∅ |}.

(** Tracked with environment [a]; the plan replaces it by [b] and keeps
    priority, state and tags. *)
Definition q1_replanned : ResourceData :=
  {| rd_id := arnOf "q1";
     rd_state := <["arn" := VString (arnOf "q1")]>
                   (attrs "q1" 1 JQStateEnabled [block "a" 0]);
     rd_plan := <["arn" := VString (arnOf "q1")]>
                  (attrs "q1" 1 JQStateEnabled [block "b" 0]);
     rd_set := ∅ |}.

(** A plan without environments, and the request Create builds from it. *)
Definition q1_bare : ResourceData := fresh (attrs "q1" 1 JQStateEnabled []).

Definition q1_bare_input : CreateJobQueueInput :=
  {| cjq_ComputeEnvironmentOrder := [];
     cjq_JobQueueName := Some "q1";
     cjq_Priority := Some 1%Z;
     cjq_State := Some JQStateEnabled;
     cjq_Tags := None |}.

(** A block whose order is held as an [int64], and the API entry it
    converts to. *)
Definition block64 (p : string * Z) : elem :=
  EMap (<["compute_environment" := SString p.1]> {["order" := SInt64 p.2]}).

Definition entry (p : string * Z) : ComputeEnvironmentOrder :=
  {| ceo_Order := Some p.2; ceo_ComputeEnvironment := Some p.1 |}.

(** A service that answers like [conn] but refuses deletions and tag
    updates. *)
Definition refusal : error := ErrAPI "ServerException: internal error".

Definition refusingConn (status : string) : BatchAPI (list JobQueueDetail) :=
  {| api_CreateJobQueue := create status;
     api_UpdateJobQueue := update;
     api_DeleteJobQueue := fun _ w => (Some refusal, w);
     api_DescribeJobQueues := describe;
     api_UpdateTags := fun _ _ _ w => (Some refusal, w) |}.

Definition refusingMeta (status : string)
  : AWSClient (list JobQueueDetail) unit unit :=
  {| batchconn := refusingConn status;
     DefaultTagsConfig := tt;
     IgnoreTagsConfig := tt |}.

(** A service that accepts a deletion and keeps reporting the queue. *)
Definition lingeringConn (status : string) : BatchAPI (list JobQueueDetail) :=
  {| api_CreateJobQueue := create status;
     api_UpdateJobQueue := update;
     api_DeleteJobQueue := fun _ w => (None, w);
     api_DescribeJobQueues := describe;
     api_UpdateTags := updateTags |}.

Definition lingeringMeta (status : string)
  : AWSClient (list JobQueueDetail) unit unit :=
  {| batchconn := lingeringConn status;
     DefaultTagsConfig := tt;
     IgnoreTagsConfig := tt |}.

(** Tracked without environments; the plan raises the priority. *)
Definition q1_reprioritized : ResourceData :=
  {| rd_id := arnOf "q1";
     rd_state := <["arn" := VString (arnOf "q1")]>
                   (attrs "q1" 1 JQStateEnabled []);
     rd_plan := <["arn" := VString (arnOf "q1")]>
                  (attrs "q1" 2 JQStateEnabled []);
     rd_set := ∅ |}.

(** Tracked without tags; the plan adds one. *)
Definition q1_retagged : ResourceData :=
  {| rd_id := arnOf "q1";
     rd_state := <["arn" := VString (arnOf "q1")]>
                   (attrs "q1" 1 JQStateEnabled q1_blocks);
     rd_plan := <["tags_all" := VMap {["team" := SString "batch"]}]>
                  (<["arn" := VString (arnOf "q1")]>
                     (attrs "q1" 1 JQStateEnabled q1_blocks));
     rd_set := ∅ |}.

End Fake.

(** ** Notions used by the statements *)

Definition orderOf (o : ComputeEnvironmentOrder) : Z :=
  Int64Value (ceo_Order o).

(** Ascending by the order field. *)
Definition orderLe (a b : ComputeEnvironmentOrder) : Prop :=
  (orderOf a <= orderOf b)%Z.

Definition environmentNames (l : list ComputeEnvironmentOrder) : list string :=
  (fun o => StringValue (ceo_ComputeEnvironment o)) <$> l.

(** The order field of a stored [compute_environment_order] block. *)
Definition blockOrder (e : elem) : option Z :=
  match e with
  | EMap m =>
      match m !! "order" with
      | Some (SInt n) => Some n
      | _ => None
      end
  | EScalar _ => None
  end.

(** The stored list is ascending by the order field of its blocks. *)
Fixpoint blocksAscending (l : list elem) : bool :=
  match l with
  | a :: (b :: _) as rest =>
      match blockOrder a, blockOrder b with
      | Some x, Some y => (x <=? y)%Z && blocksAscending rest
      | _, _ => false
      end
  | _ => true
  end.

(** The status the refresh function derives from one answer of
    [DescribeJobQueues]. *)
Definition reportedStatus (r : error + list JobQueueDetail) : option string :=
  match r with
  | inr [] => Some JQStatusDeleted
  | inr [q] => jq_Status q
  | _ => None
  end.

Definition describes (name : string) (ev : Event) : Prop :=
  exists r, ev = EvDescribeJobQueues [name] r.

Definition isDescribeJobQueues (ev : Event) : bool :=
  match ev with EvDescribeJobQueues _ _ => true | _ => false end.

(** A block [createComputeEnvironmentOrder] converts: a map whose order is
    an [int64] and whose environment is a string. *)
Definition convertibleBlock (e : elem) : bool :=
  match e with
  | EMap m =>
      match m !! "order", m !! "compute_environment" with
      | Some (SInt64 _), Some (SString _) => true
      | _, _ => false
      end
  | EScalar _ => false
  end.

(** * Properties *)

Open Scope list_scope.

(** ** The sort *)

Lemma bubble_perm x rprefix : bubble x rprefix ≡ₚ x :: rprefix.
Proof.
  induction rprefix as [|y rest IH]; simpl; [done|].
  destruct (lessOrder x y); [|done].
  rewrite IH. apply Permutation_swap.
Qed.

Lemma bubble_sorted x rprefix :
  StronglySorted (flip orderLe) rprefix ->
  StronglySorted (flip orderLe) (bubble x rprefix).
Proof.
  induction 1 as [|y rest Hrest IH Hy]; simpl.
  - repeat constructor.
  - destruct (lessOrder x y) eqn:Hlt; unfold lessOrder in Hlt.
    + apply Z.ltb_lt in Hlt. constructor; [done|].
      rewrite bubble_perm. constructor; [|done].
      unfold flip, orderLe, orderOf. lia.
    + apply Z.ltb_ge in Hlt. constructor.
      * by constructor.
      * constructor; [exact Hlt|].
        eapply Forall_impl; [exact Hy|].
        intros z Hz. unfold flip, orderLe, orderOf in *. lia.
Qed.

Lemma StronglySorted_rev_flip {A} (R : relation A) (l : list A) :
  StronglySorted (flip R) l -> StronglySorted R (rev l).
Proof.
  induction 1 as [|x l Hl IH Hx]; simpl; [constructor|].
  apply StronglySorted_app_2; [|done|repeat constructor].
  intros a b Ha Hb. apply list_elem_of_singleton in Hb as ->.
  rewrite Forall_forall in Hx. apply Hx.
  apply list_elem_of_In, in_rev, list_elem_of_In in Ha. done.
Qed.

Lemma insertion_loop_sorted l acc :
  StronglySorted (flip orderLe) acc ->
  StronglySorted (flip orderLe)
    (fold_left (fun rprefix x => bubble x rprefix) l acc).
Proof.
  revert acc. induction l as [|x l IH]; intros acc Hacc; simpl; [done|].
  apply IH, bubble_sorted, Hacc.
Qed.

Lemma insertion_loop_perm l acc :
  fold_left (fun rprefix x => bubble x rprefix) l acc ≡ₚ rev l ++ acc.
Proof.
  revert acc. induction l as [|x l IH]; intros acc; simpl; [done|].
  rewrite IH, bubble_perm, <- app_assoc. simpl. done.
Qed.

Lemma sortSlice_sorted l : StronglySorted orderLe (sortSlice l).
Proof.
  apply StronglySorted_rev_flip, insertion_loop_sorted. constructor.
Qed.

Lemma sortSlice_perm l : sortSlice l ≡ₚ l.
Proof.
  unfold sortSlice.
  rewrite <- Permutation_rev, insertion_loop_perm, app_nil_r.
  symmetry. apply Permutation_rev.
Qed.

(** ** Runs of the lookup, the refresh function and the poller *)

Section Runs.
Context {W DefaultConfig IgnoreConfig : Type}.
Variable tagops : TagOps DefaultConfig IgnoreConfig.
Variable pollBudget : Z -> Z -> Z -> nat.

Lemma getJobQueue_run (conn : BatchAPI W) sn (s : St W) :
  getJobQueue conn sn s =
  let '(resp, w) := api_DescribeJobQueues conn [sn] (world s) in
  let s1 := logCall w (EvDescribeJobQueues [sn] resp) s in
  match resp with
  | inl e => (Err e, s1)
  | inr [] => (Ok None, s1)
  | inr [q] => (Ok (Some q), s1)
  | inr _ => (Err (ErrMultiple sn), s1)
  end.
Proof.
  unfold getJobQueue, bind, DescribeJobQueues.
  destruct (api_DescribeJobQueues conn [sn] (world s)) as [[e|qs] w];
    [done|].
  destruct qs as [|q [|q' qs]]; reflexivity.
Qed.

Lemma refresh_run (conn : BatchAPI W) sn (s : St W) :
  batchJobQueueRefreshStatusFunc conn sn s =
  let '(resp, w) := api_DescribeJobQueues conn [sn] (world s) in
  let s1 := logCall w (EvDescribeJobQueues [sn] resp) s in
  match resp with
  | inl e => (Ok (RNil, "failed", Some e), s1)
  | inr [] => (Ok (RInt 42, JQStatusDeleted, None), s1)
  | inr [q] =>
      match jq_Status q with
      | Some status => (Ok (RQueue q, status, None), s1)
      | None => (Panic "nil pointer dereference", s1)
      end
  | inr _ => (Ok (RNil, "failed", Some (ErrMultiple sn)), s1)
  end.
Proof.
  unfold batchJobQueueRefreshStatusFunc. rewrite getJobQueue_run.
  destruct (api_DescribeJobQueues conn [sn] (world s)) as [[e|qs] w];
    [done|].
  destruct qs as [|q [|q' qs]]; reflexivity.
Qed.

(** The poller only issues [DescribeJobQueues] for its queue, leaves the
    resource data alone, and succeeds only right after an answer whose
    status is a target. *)
Lemma waitLoop_run (conn : BatchAPI W) sn pending target t dl mt budget :
  forall (s s' : St W) r,
    waitLoop {| Pending := pending; Target := target;
                Refresh := batchJobQueueRefreshStatusFunc conn sn;
                Timeout := t; Delay := dl; MinTimeout := mt |} budget s
    = (r, s') ->
    exists polls,
      trace s' = trace s ++ polls /\
      Forall (describes sn) polls /\
      rd s' = rd s /\ sets s' = sets s /\
      (forall res, r = Ok res ->
         exists before answer status,
           polls = before ++ [EvDescribeJobQueues [sn] answer] /\
           reportedStatus answer = Some status /\ status ∈ target).
Proof.
  induction budget as [|budget IH]; intros s s' r Hrun; simpl in Hrun.
  - inversion Hrun; subst. exists []. rewrite app_nil_r.
    split_and!; [done|constructor|done|done|discriminate].
  - unfold bind in Hrun. simpl in Hrun. rewrite refresh_run in Hrun.
    destruct (api_DescribeJobQueues conn [sn] (world s)) as [resp w] eqn:Hd.
    set (ev := EvDescribeJobQueues [sn] resp) in *.
    assert (Hev : describes sn ev) by (by exists resp).
    assert (Hstop : forall o,
              (o, logCall w ev s) = (r, s') -> (forall res, o <> Ok res) ->
              exists polls,
                trace s' = trace s ++ polls /\ Forall (describes sn) polls /\
                rd s' = rd s /\ sets s' = sets s /\
                (forall res, r = Ok res ->
                   exists before answer status,
                     polls = before ++ [EvDescribeJobQueues [sn] answer] /\
                     reportedStatus answer = Some status /\ status ∈ target)).
    { intros o Ho Hne. inversion Ho; subst. exists [ev].
      split_and!; [done|by constructor|done|done|].
      intros res ->. by destruct (Hne res). }
    assert (Hstep : forall res status,
              reportedStatus resp = Some status ->
              (if inStatuses status target then ret res
               else if inStatuses status pending
                    then waitLoop
                           {| Pending := pending; Target := target;
                              Refresh := batchJobQueueRefreshStatusFunc conn sn;
                              Timeout := t; Delay := dl; MinTimeout := mt |}
                           budget
                    else failWith (ErrUnexpectedState status))
                (logCall w ev s) = (r, s') ->
              exists polls,
                trace s' = trace s ++ polls /\ Forall (describes sn) polls /\
                rd s' = rd s /\ sets s' = sets s /\
                (forall res, r = Ok res ->
                   exists before answer status,
                     polls = before ++ [EvDescribeJobQueues [sn] answer] /\
                     reportedStatus answer = Some status /\ status ∈ target)).
    { intros res status Hst Hk. unfold inStatuses in Hk.
      destruct (bool_decide (status ∈ target)) eqn:Ht.
      - apply bool_decide_eq_true in Ht. inversion Hk; subst.
        exists [ev]. split_and!; [done|by constructor|done|done|].
        intros res' _. exists [], resp, status. done.
      - destruct (bool_decide (status ∈ pending)).
        + apply IH in Hk as (polls & Htr & Hall & Hrd & Hsets & Hok).
          exists (ev :: polls). simpl in Htr.
          split_and!; [by rewrite Htr, <- app_assoc|by constructor|done|done|].
          intros res' Hr. destruct (Hok res' Hr) as (b & a & st & -> & ? & ?).
          exists (ev :: b), a, st. done.
        + apply (Hstop _ Hk). discriminate. }
    destruct resp as [e|[|q [|q' qs]]]; simpl in Hrun.
    + apply (Hstop _ Hrun). discriminate.
    + by apply (Hstep (RInt 42) JQStatusDeleted).
    + destruct (jq_Status q) as [status|] eqn:Hq; simpl in Hrun.
      * by apply (Hstep (RQueue q) status).
      * apply (Hstop _ Hrun). discriminate.
    + apply (Hstop _ Hrun). discriminate.
Qed.
End Runs.

(** ** Writes to the resource data *)

Lemma Schema_compute_environments : Schema !! "compute_environments" = None.
Proof. vm_compute. reflexivity. Qed.

Lemma Schema_compute_environment_order :
  Schema !! "compute_environment_order" = Some TypeList.
Proof. vm_compute. reflexivity. Qed.

Lemma rd_Set_undeclared key v d :
  Schema !! key = None -> rd_Set key v d = (Some (ErrInvalidAddress key), d).
Proof. intros H. unfold rd_Set. by rewrite H. Qed.

(** A write leaves the prior state, the plan, the identifier and every
    other key alone. *)
Lemma rd_Set_frame key v d k :
  key <> k ->
  rd_state (rd_Set key v d).2 = rd_state d /\
  rd_plan (rd_Set key v d).2 = rd_plan d /\
  rd_id (rd_Set key v d).2 = rd_id d /\
  rd_set (rd_Set key v d).2 !! k = rd_set d !! k.
Proof.
  intros Hne. unfold rd_Set.
  destruct (Schema !! key) as [t|]; [|done].
  destruct (writeAs t v); [|done].
  simpl. by rewrite lookup_insert_ne.
Qed.

Lemma rd_Get_frame k d d' :
  rd_plan d' = rd_plan d -> rd_set d' !! k = rd_set d !! k ->
  rd_Get k d' = rd_Get k d.
Proof. intros Hp Hs. unfold rd_Get. by rewrite Hp, Hs. Qed.

Section ReadRuns.
Context {W DefaultConfig IgnoreConfig : Type}.
Variable tagops : TagOps DefaultConfig IgnoreConfig.

(** The four ways a Read ends: the lookup fails, finds nothing, finds one
    queue, finds several.  With one queue the write of the environment
    names is refused, because the schema has no such key. *)
Lemma resourceAwsBatchJobQueueRead_run
    (meta : AWSClient W DefaultConfig IgnoreConfig) (s : St W) :
  resourceAwsBatchJobQueueRead tagops meta s =
  let id := rd_id (rd s) in
  let '(resp, w) := api_DescribeJobQueues (batchconn meta) [id] (world s) in
  let s1 := logCall w (EvDescribeJobQueues [id] resp) s in
  match resp with
  | inl e => (Err e, s1)
  | inr [] => (Ok tt, withRd (rd_SetId "") s1)
  | inr [jq] =>
      let arn := stringPtrValue (jq_JobQueueArn jq) in
      let names :=
        VStrings (environmentNames (sortSlice (jq_ComputeEnvironmentOrder jq))) in
      (Err (ErrSetComputeEnvironments
              (ErrInvalidAddress "compute_environments")),
       {| world := w; trace := trace s1;
          rd := (rd_Set "arn" arn (rd s)).2;
          sets := sets s ++ [("arn", arn); ("compute_environments", names)] |})
  | inr _ => (Err (ErrMultiple id), s1)
  end.
Proof.
  unfold resourceAwsBatchJobQueueRead, bind at 1, d_Id.
  unfold bind at 1. rewrite getJobQueue_run. cbn [rd].
  destruct (api_DescribeJobQueues (batchconn meta) [rd_id (rd s)] (world s))
    as [[e|qs] w]; [done|].
  destruct qs as [|jq [|q' qs]]; [done| |done].
  cbv zeta. unfold bind at 1, d_Set at 1. cbn [rd logCall sets world trace].
  destruct (rd_Set "arn" (stringPtrValue (jq_JobQueueArn jq)) (rd s))
    as [e d'] eqn:Harn.
  unfold bind at 1, d_Set at 1. cbn [rd sets world trace].
  rewrite (rd_Set_undeclared _ _ _ Schema_compute_environments).
  unfold failWith, environmentNames. cbn [snd].
  by rewrite <- app_assoc.
Qed.
End ReadRuns.

(** ** Read *)

(** C6.  When the lookup of the stored identifier succeeds with zero
    matches, Read returns no error, clears the identifier, and writes no
    attribute. *)
Theorem read_absent_clears_id {W DefaultConfig IgnoreConfig : Type}
    (tagops : TagOps DefaultConfig IgnoreConfig)
    (meta : AWSClient W DefaultConfig IgnoreConfig) (s : St W) (w : W) :
  api_DescribeJobQueues (batchconn meta) [rd_id (rd s)] (world s) = (inr [], w) ->
  let r := resourceAwsBatchJobQueueRead tagops meta s in
  r.1 = Ok tt /\
  rd_id (rd r.2) = "" /\
  rd_state (rd r.2) = rd_state (rd s) /\
  rd_plan (rd r.2) = rd_plan (rd s) /\
  rd_set (rd r.2) = rd_set (rd s) /\
  sets r.2 = sets s.
Proof.
  intros Hd r. subst r. rewrite resourceAwsBatchJobQueueRead_run.
  cbv zeta. rewrite Hd. done.
Qed.

Lemma read_absent_clears_id_witness :
  api_DescribeJobQueues (batchconn (Fake.meta JQStatusValid))
    [rd_id (rd (Fake.start [] Fake.q1_stored))]
    (world (Fake.start [] Fake.q1_stored)) = (inr [], []) /\
  (resourceAwsBatchJobQueueRead Fake.tagops (Fake.meta JQStatusValid)
     (Fake.start [] Fake.q1_stored)).1 = Ok tt /\
  rd_id (rd (resourceAwsBatchJobQueueRead Fake.tagops (Fake.meta JQStatusValid)
               (Fake.start [] Fake.q1_stored)).2) = "".
Proof.
  split; [reflexivity|].
  pose proof (read_absent_clears_id Fake.tagops (Fake.meta JQStatusValid)
                (Fake.start [] Fake.q1_stored) [] eq_refl) as H.
  split; [apply H|apply H].
Defined.

(** C7.  When the lookup of the stored identifier returns more than one
    match, Read returns the multiple-queues error; it picks none of the
    matches: the resource data is left as it was and nothing is written. *)
Theorem read_ambiguous_is_error {W DefaultConfig IgnoreConfig : Type}
    (tagops : TagOps DefaultConfig IgnoreConfig)
    (meta : AWSClient W DefaultConfig IgnoreConfig) (s : St W)
    (queues : list JobQueueDetail) (w : W) :
  api_DescribeJobQueues (batchconn meta) [rd_id (rd s)] (world s)
    = (inr queues, w) ->
  1 < length queues ->
  let r := resourceAwsBatchJobQueueRead tagops meta s in
  r.1 = Err (ErrMultiple (rd_id (rd s))) /\
  rd r.2 = rd s /\
  sets r.2 = sets s.
Proof.
  intros Hd Hlen r. subst r. rewrite resourceAwsBatchJobQueueRead_run.
  cbv zeta. rewrite Hd.
  destruct queues as [|q [|q' qs]]; simpl in Hlen; [lia|lia|done].
Qed.

Lemma read_ambiguous_is_error_witness :
  (resourceAwsBatchJobQueueRead Fake.tagops (Fake.meta JQStatusValid)
     (Fake.start [Fake.q1_detail; Fake.q1_detail] Fake.q1_stored)).1
  = Err (ErrMultiple (Fake.arnOf "q1")).
Proof.
  refine (proj1 (read_ambiguous_is_error Fake.tagops (Fake.meta JQStatusValid)
                   (Fake.start [Fake.q1_detail; Fake.q1_detail] Fake.q1_stored)
                   [Fake.q1_detail; Fake.q1_detail]
                   [Fake.q1_detail; Fake.q1_detail] _ _)).
  - vm_compute. reflexivity.
  - simpl. lia.
Defined.

(** Whatever Read finds, the stored [compute_environment_order] reads the
    same before and after. *)
Lemma read_frame_compute_environment_order
    {W DefaultConfig IgnoreConfig : Type}
    (tagops : TagOps DefaultConfig IgnoreConfig)
    (meta : AWSClient W DefaultConfig IgnoreConfig) (s : St W) :
  let s' := (resourceAwsBatchJobQueueRead tagops meta s).2 in
  rd_state (rd s') = rd_state (rd s) /\
  rd_plan (rd s') = rd_plan (rd s) /\
  rd_set (rd s') !! "compute_environment_order"
    = rd_set (rd s) !! "compute_environment_order" /\
  rd_Get "compute_environment_order" (rd s')
    = rd_Get "compute_environment_order" (rd s).
Proof.
  cbv zeta. rewrite resourceAwsBatchJobQueueRead_run. cbv zeta.
  destruct (api_DescribeJobQueues (batchconn meta) [rd_id (rd s)] (world s))
    as [[e|qs] w]; [done|].
  destruct qs as [|jq [|q' qs]]; [done| |done].
  cbn [snd rd].
  destruct (rd_Set_frame "arn" (stringPtrValue (jq_JobQueueArn jq)) (rd s)
              "compute_environment_order") as (Hst & Hpl & _ & Hset); [done|].
  split_and!; [done|done|done|].
  by apply rd_Get_frame.
Qed.

(** C10.  For an existing queue Read hands two values to [Set]: the ARN
    under [arn] and the sorted environment names under
    [compute_environments], a key the schema does not declare.  Nothing is
    written under [compute_environment_order], whose stored value is the
    same after Read as before. *)
Theorem read_never_writes_compute_environment_order
    {W DefaultConfig IgnoreConfig : Type}
    (tagops : TagOps DefaultConfig IgnoreConfig)
    (meta : AWSClient W DefaultConfig IgnoreConfig) (s : St W)
    (jq : JobQueueDetail) (w : W) :
  api_DescribeJobQueues (batchconn meta) [rd_id (rd s)] (world s)
    = (inr [jq], w) ->
  let s' := (resourceAwsBatchJobQueueRead tagops meta s).2 in
  sets s' =
    sets s ++
    [ ("arn", stringPtrValue (jq_JobQueueArn jq));
      ("compute_environments",
       VStrings (environmentNames (sortSlice (jq_ComputeEnvironmentOrder jq)))) ]
  /\ Schema !! "compute_environments" = None
  /\ Schema !! "compute_environment_order" = Some TypeList
  /\ rd_state (rd s') !! "compute_environment_order"
     = rd_state (rd s) !! "compute_environment_order"
  /\ rd_plan (rd s') !! "compute_environment_order"
     = rd_plan (rd s) !! "compute_environment_order"
  /\ rd_set (rd s') !! "compute_environment_order"
     = rd_set (rd s) !! "compute_environment_order"
  /\ rd_Get "compute_environment_order" (rd s')
     = rd_Get "compute_environment_order" (rd s).
Proof.
  intros Hd s'.
  destruct (read_frame_compute_environment_order tagops meta s)
    as (Hst & Hpl & Hset & Hget).
  fold s' in Hst, Hpl, Hset, Hget.
  split_and!;
    [|exact Schema_compute_environments
     |exact Schema_compute_environment_order
     |by rewrite Hst|by rewrite Hpl|done|done].
  subst s'. rewrite resourceAwsBatchJobQueueRead_run. cbv zeta.
  rewrite Hd. done.
Qed.

Lemma read_never_writes_compute_environment_order_witness :
  rd_Get "compute_environment_order"
    (rd (resourceAwsBatchJobQueueRead Fake.tagops (Fake.meta JQStatusValid)
           (Fake.start [Fake.q1_detail] Fake.q1_stored)).2)
  = rd_Get "compute_environment_order" Fake.q1_stored.
Proof.
  refine (proj2 (proj2 (proj2 (proj2 (proj2 (proj2
    (read_never_writes_compute_environment_order Fake.tagops
       (Fake.meta JQStatusValid) (Fake.start [Fake.q1_detail] Fake.q1_stored)
       Fake.q1_detail [Fake.q1_detail] _))))))).
  vm_compute. reflexivity.
Defined.

(** C3, at the scenario's queue.  The API lists environment [a] (order 1)
    before [b] (order 0).  Read sorts the names to [b; a] and offers them
    under [compute_environments]; the write is refused, Read returns that
    error, and the stored [compute_environment_order] is still
    [a (1); b (0)]: not ascending by order. *)
Theorem read_leaves_stored_order_unsorted :
  let r := resourceAwsBatchJobQueueRead Fake.tagops (Fake.meta JQStatusValid)
             (Fake.start [Fake.q1_detail] Fake.q1_stored) in
  r.1 = Err (ErrSetComputeEnvironments
               (ErrInvalidAddress "compute_environments")) /\
  sets r.2 = [ ("arn", VString (Fake.arnOf "q1"));
               ("compute_environments", VStrings ["b"; "a"]) ] /\
  rd_Get "compute_environment_order" (rd r.2)
    = VList [Fake.block "a" 1; Fake.block "b" 0] /\
  blocksAscending [Fake.block "a" 1; Fake.block "b" 0] = false.
Proof. vm_compute. done. Qed.

(** ** The status-refresh function *)

(** C8.  One call of the refresh function on queue [sn], by the answer of
    the lookup: a failed lookup (the API's error, or several matches) gives
    the status [failed] with the error; zero matches give [DELETED]; one
    match gives the status the queue reports.  [failed] is none of the
    lifecycle statuses of the API. *)
Theorem refresh_status_by_answer {W : Type} (conn : BatchAPI W) (sn : string)
    (s : St W) (resp : error + list JobQueueDetail) (w : W) :
  api_DescribeJobQueues conn [sn] (world s) = (resp, w) ->
  let s1 := logCall w (EvDescribeJobQueues [sn] resp) s in
  let r := batchJobQueueRefreshStatusFunc conn sn s in
  (forall e, resp = inl e -> r = (Ok (RNil, "failed", Some e), s1)) /\
  (forall queues, resp = inr queues -> 1 < length queues ->
     r = (Ok (RNil, "failed", Some (ErrMultiple sn)), s1)) /\
  (resp = inr [] -> r = (Ok (RInt 42, JQStatusDeleted, None), s1)) /\
  (forall q status, resp = inr [q] -> jq_Status q = Some status ->
     r = (Ok (RQueue q, status, None), s1)) /\
  "failed" ∉ JQStatus_Values.
Proof.
  intros Hd s1 r. subst r s1. rewrite refresh_run, Hd.
  split_and!.
  - by intros e ->.
  - intros [|q [|q' qs]] -> Hlen; simpl in Hlen; [lia|lia|done].
  - by intros ->.
  - intros q status -> Hq. by rewrite Hq.
  - unfold JQStatus_Values. intros H.
    repeat (apply elem_of_cons in H as [H|H]; [discriminate|]).
    by apply elem_of_nil in H.
Qed.

Lemma refresh_status_by_answer_witness :
  batchJobQueueRefreshStatusFunc (Fake.conn JQStatusValid) "q1"
    (Fake.start [Fake.q1_detail] Fake.q1_stored)
  = (Ok (RQueue Fake.q1_detail, JQStatusValid, None),
     logCall [Fake.q1_detail]
       (EvDescribeJobQueues ["q1"] (inr [Fake.q1_detail]))
       (Fake.start [Fake.q1_detail] Fake.q1_stored)).
Proof.
  refine (proj1 (proj2 (proj2 (proj2
    (refresh_status_by_answer (Fake.conn JQStatusValid) "q1"
       (Fake.start [Fake.q1_detail] Fake.q1_stored)
       (inr [Fake.q1_detail]) [Fake.q1_detail] _))))
    Fake.q1_detail JQStatusValid _ _).
  - vm_compute. reflexivity.
  - reflexivity.
  - reflexivity.
Defined.

(** ** Building the compute-environment order *)

(** A first block whose order is an [int] stops the conversion with a failed
    type assertion, whatever follows it. *)
Lemma createComputeEnvironmentOrder_int_order m n rest :
  m !! "order" = Some (SInt n) ->
  createComputeEnvironmentOrder (EMap m :: rest)
  = Panic "interface conversion: interface {} is not int64".
Proof.
  intros Hm. unfold createComputeEnvironmentOrder. simpl.
  unfold assertInt64At. by rewrite Hm.
Qed.

Lemma block_order ce n :
  forall m, Fake.block ce n = EMap m -> m !! "order" = Some (SInt n).
Proof.
  intros m [= <-]. rewrite lookup_insert_ne by done.
  apply lookup_singleton_eq.
Qed.

(** With [int64] orders and string names the conversion returns one entry
    per block. *)
Lemma createComputeEnvironmentOrder_from_length order :
  forall envs result,
    createComputeEnvironmentOrder_from envs order = Ok result ->
    length result = length envs + length order.
Proof.
  induction order as [|env rest IH]; intros envs result H; simpl in H.
  - inversion H. simpl. lia.
  - destruct (createComputeEnvironmentOrder_entry env) as [e| |]; simpl in H;
      [|done|done].
    apply IH in H. rewrite length_app in H. simpl in *. lia.
Qed.

(** C4, on the code.  A [compute_environment_order] list whose first block
    holds its order as an [int], the way the schema layer stores a
    [TypeInt], makes [createComputeEnvironmentOrder] panic on the
    [int64] assertion: it returns no entry at all. *)
Theorem createComputeEnvironmentOrder_panics_on_schema_blocks
    (ce : string) (n : Z) (rest : list elem) :
  createComputeEnvironmentOrder (Fake.block ce n :: rest)
  = Panic "interface conversion: interface {} is not int64".
Proof.
  eapply createComputeEnvironmentOrder_int_order, block_order. reflexivity.
Qed.

(** ** Create *)

Lemma fresh_attrs_Get name priority state order :
  let d := Fake.fresh (Fake.attrs name priority state order) in
  rd_Get "tags" d = VMap ∅ /\
  rd_Get "compute_environment_order" d = VList order /\
  rd_Get "name" d = VString name /\
  rd_Get "priority" d = VInt priority /\
  rd_Get "state" d = VString state.
Proof. vm_compute. done. Qed.

(** C2, on the code.  Create on a plan whose first environment block is
    stored the way the schema layer stores it panics while it builds the
    request: no API call is issued and nothing is read back. *)
Theorem create_panics_before_any_call {W DefaultConfig IgnoreConfig : Type}
    (tagops : TagOps DefaultConfig IgnoreConfig)
    (pollBudget : Z -> Z -> Z -> nat)
    (meta : AWSClient W DefaultConfig IgnoreConfig) (w : W)
    (name : string) (priority : Z) (state ce : string) (n : Z)
    (rest : list elem) :
  let s := {| world := w; trace := [];
              rd := Fake.fresh
                      (Fake.attrs name priority state (Fake.block ce n :: rest));
              sets := [] |} in
  resourceAwsBatchJobQueueCreate tagops pollBudget meta s
  = (Panic "interface conversion: interface {} is not int64", s).
Proof.
  intros s. unfold resourceAwsBatchJobQueueCreate, bind at 1.
  unfold createJobQueueInput. cbn [rd s].
  destruct (fresh_attrs_Get name priority state (Fake.block ce n :: rest))
    as (-> & -> & _).
  cbn [assertMap assertList obind].
  unfold Fake.block.
  erewrite createComputeEnvironmentOrder_int_order
    by (eapply (block_order ce n); reflexivity).
  reflexivity.
Qed.

(** ** Update *)

Lemma HasChange_compute_environments d :
  rd_HasChange "compute_environments" d = false.
Proof.
  unfold rd_HasChange, rd_GetChange.
  rewrite Schema_compute_environments. reflexivity.
Qed.

(** The guard of the update call looks at priority and state only. *)
Lemma HasChanges_guard d :
  rd_HasChanges ["compute_environments"; "priority"; "state"] d
  = rd_HasChange "priority" d || rd_HasChange "state" d.
Proof.
  unfold rd_HasChanges. cbn [existsb].
  rewrite HasChange_compute_environments. cbn [orb].
  by rewrite orb_false_r.
Qed.

(** With priority, state and [tags_all] unchanged, Update is a Read. *)
Lemma update_without_changes_is_read {W DefaultConfig IgnoreConfig : Type}
    (tagops : TagOps DefaultConfig IgnoreConfig)
    (pollBudget : Z -> Z -> Z -> nat)
    (meta : AWSClient W DefaultConfig IgnoreConfig) (s : St W) :
  rd_HasChange "priority" (rd s) = false ->
  rd_HasChange "state" (rd s) = false ->
  rd_HasChange "tags_all" (rd s) = false ->
  resourceAwsBatchJobQueueUpdate tagops pollBudget meta s
  = resourceAwsBatchJobQueueRead tagops meta s.
Proof.
  intros Hp Hs Ht.
  unfold resourceAwsBatchJobQueueUpdate, bind, d_HasChanges, d_HasChange, ret.
  rewrite HasChanges_guard, Hp, Hs. cbn [orb]. by rewrite Ht.
Qed.

(** With priority and state unchanged and [tags_all] changed, Update issues
    the tag update and then reads: no [UpdateJobQueue]. *)
Lemma update_tags_only {W DefaultConfig IgnoreConfig : Type}
    (tagops : TagOps DefaultConfig IgnoreConfig)
    (pollBudget : Z -> Z -> Z -> nat)
    (meta : AWSClient W DefaultConfig IgnoreConfig) (s : St W) (arn : string) :
  rd_HasChange "priority" (rd s) = false ->
  rd_HasChange "state" (rd s) = false ->
  rd_HasChange "tags_all" (rd s) = true ->
  rd_Get "arn" (rd s) = VString arn ->
  exists r rest,
    trace (resourceAwsBatchJobQueueUpdate tagops pollBudget meta s).2
    = trace s ++
      EvUpdateTags arn (rd_GetChange "tags_all" (rd s)).1
        (rd_GetChange "tags_all" (rd s)).2 r :: rest /\
    Forall (fun ev => isUpdateJobQueue ev = false) rest.
Proof.
  intros Hp Hs Ht Harn.
  unfold resourceAwsBatchJobQueueUpdate, bind, d_HasChanges, d_HasChange, ret,
    d_GetChange, d_Get, lift, BatchUpdateTags.
  rewrite HasChanges_guard, Hp, Hs. cbn [orb]. rewrite Ht.
  destruct (rd_GetChange "tags_all" (rd s)) as [o n]. rewrite Harn.
  unfold VString. cbn [assertString fst snd].
  destruct (api_UpdateTags (batchconn meta) arn o n (world s)) as [[e|] w].
  - exists (Some e), []. unfold failWith. split; [done|constructor].
  - pose proof (resourceAwsBatchJobQueueRead_run tagops meta
                  (logCall w (EvUpdateTags arn o n None) s)) as Hrun.
    cbv zeta in Hrun. rewrite Hrun. clear Hrun.
    destruct (api_DescribeJobQueues _ _ _) as [[e|qs] w'].
    + exists None. eexists. cbn [snd logCall trace].
      rewrite <- app_assoc. split; [reflexivity|]. by repeat constructor.
    + exists None. eexists.
      destruct qs as [|jq [|q' qs]]; cbn [snd logCall trace withRd];
        rewrite <- app_assoc; (split; [reflexivity|]); by repeat constructor.
Qed.

(** C1, on the code.  The tracked queue lists environment [a]; the plan
    lists [b] instead and keeps priority, state and tags.  The
    compute-environment order differs, yet Update issues no
    [UpdateJobQueue]: its only call is the lookup of the final Read. *)
Theorem update_skips_call_on_order_change {W DefaultConfig IgnoreConfig : Type}
    (tagops : TagOps DefaultConfig IgnoreConfig)
    (pollBudget : Z -> Z -> Z -> nat)
    (meta : AWSClient W DefaultConfig IgnoreConfig) (w : W) :
  let s := {| world := w; trace := []; rd := Fake.q1_replanned; sets := [] |} in
  rd_GetChange "compute_environment_order" Fake.q1_replanned
  = (VList [Fake.block "a" 0], VList [Fake.block "b" 0]) /\
  rd_HasChange "compute_environment_order" Fake.q1_replanned = true /\
  exists resp,
    trace (resourceAwsBatchJobQueueUpdate tagops pollBudget meta s).2
    = [EvDescribeJobQueues [Fake.arnOf "q1"] resp].
Proof.
  intros s. split; [by vm_compute|]. split; [by vm_compute|].
  rewrite update_without_changes_is_read by (by vm_compute).
  rewrite resourceAwsBatchJobQueueRead_run. cbv zeta.
  destruct (api_DescribeJobQueues _ _ _) as [resp w'] eqn:Hd.
  exists resp.
  destruct resp as [e|[|jq [|q' qs]]]; reflexivity.
Qed.

(** The poll after Create, on the state the create call leaves. *)
Lemma create_after_call {W DefaultConfig IgnoreConfig : Type}
    (tagops : TagOps DefaultConfig IgnoreConfig)
    (pollBudget : Z -> Z -> Z -> nat)
    (meta : AWSClient W DefaultConfig IgnoreConfig) (s : St W)
    (input : CreateJobQueueInput) (name : string) (arn : option string)
    (w : W) :
  createJobQueueInput tagops meta (rd s) = Ok input ->
  rd_Get "name" (rd s) = VString name ->
  api_CreateJobQueue (batchconn meta) input (world s) = (inr arn, w) ->
  resourceAwsBatchJobQueueCreate tagops pollBudget meta s =
  match WaitForState pollBudget (createStateConf (batchconn meta) name)
          (logCall w (EvCreateJobQueue input (inr arn)) s) with
  | (Ok _, s2) =>
      resourceAwsBatchJobQueueRead tagops meta
        (withRd (rd_SetId (StringValue arn)) s2)
  | (Err e, s2) => (Err (ErrWaitValid e), s2)
  | (Panic msg, s2) => (Panic msg, s2)
  end.
Proof.
  intros Hin Hname Hcall.
  unfold resourceAwsBatchJobQueueCreate, bind, d_Get, lift, CreateJobQueue,
    wrapErr, d_SetId.
  rewrite Hin, Hname. unfold VString. cbn [assertString].
  rewrite Hcall.
  by destruct (WaitForState _ _ _) as [[res|e|msg] s2].
Qed.

(** X19.  Once the create call has succeeded, Create polls with pending
    statuses CREATING and UPDATING, target VALID, a timeout of 10 minutes,
    a delay of 10 seconds and a minimum interval of 3 seconds.  If the poll
    fails (timeout, a status that is neither pending nor the target, or a
    failed lookup), Create returns the wait-failure error around the poll's
    error; the poll succeeds only right after an answer reporting VALID;
    and Create returns success only if the poll did. *)
Theorem create_reports_wait_failure {W DefaultConfig IgnoreConfig : Type}
    (tagops : TagOps DefaultConfig IgnoreConfig)
    (pollBudget : Z -> Z -> Z -> nat)
    (meta : AWSClient W DefaultConfig IgnoreConfig) (s : St W)
    (input : CreateJobQueueInput) (name : string) (arn : option string)
    (w : W) :
  createJobQueueInput tagops meta (rd s) = Ok input ->
  rd_Get "name" (rd s) = VString name ->
  api_CreateJobQueue (batchconn meta) input (world s) = (inr arn, w) ->
  let conf := createStateConf (batchconn meta) name in
  let s1 := logCall w (EvCreateJobQueue input (inr arn)) s in
  let run := resourceAwsBatchJobQueueCreate tagops pollBudget meta s in
  (Pending conf = ["CREATING"; "UPDATING"] /\
   Target conf = ["VALID"] /\
   Timeout conf = (10 * 60 * 1000000000)%Z /\
   Delay conf = (10 * 1000000000)%Z /\
   MinTimeout conf = (3 * 1000000000)%Z) /\
  (forall e s2, WaitForState pollBudget conf s1 = (Err e, s2) ->
     run = (Err (ErrWaitValid e), s2)) /\
  (forall res s2, WaitForState pollBudget conf s1 = (Ok res, s2) ->
     exists before answer,
       trace s2 = trace s1 ++ before ++ [EvDescribeJobQueues [name] answer] /\
       reportedStatus answer = Some JQStatusValid) /\
  (run.1 = Ok tt ->
     exists res s2, WaitForState pollBudget conf s1 = (Ok res, s2)).
Proof.
  intros Hin Hname Hcall conf s1 run.
  assert (Hrun := create_after_call tagops pollBudget meta s input name arn w
                    Hin Hname Hcall).
  fold conf s1 run in Hrun.
  split_and!; try reflexivity.
  - intros e s2 Hw. by rewrite Hrun, Hw.
  - intros res s2 Hw. unfold WaitForState in Hw.
    apply waitLoop_run in Hw as (polls & Htr & _ & _ & _ & Hok).
    destruct (Hok res eq_refl) as (before & answer & status & -> & Hst & Hin').
    exists before, answer. split; [done|].
    apply list_elem_of_singleton in Hin' as ->. done.
  - intros Hok. rewrite Hrun in Hok.
    destruct (WaitForState pollBudget conf s1) as [[res|e|msg] s2];
      [by exists res, s2|done|done].
Qed.

Lemma create_reports_wait_failure_witness :
  resourceAwsBatchJobQueueCreate Fake.tagops (Fake.polls 2)
    (Fake.meta JQStatusCreating) (Fake.start [] Fake.q1_bare)
  = (Err (ErrWaitValid ErrTimeout),
     (WaitForState (Fake.polls 2)
        (createStateConf (Fake.conn JQStatusCreating) "q1")
        (logCall
           (api_CreateJobQueue (Fake.conn JQStatusCreating) Fake.q1_bare_input
              []).2
           (EvCreateJobQueue Fake.q1_bare_input
              (inr (Some (Fake.arnOf "q1"))))
           (Fake.start [] Fake.q1_bare))).2).
Proof.
  refine (proj1 (proj2
    (create_reports_wait_failure Fake.tagops (Fake.polls 2)
       (Fake.meta JQStatusCreating) (Fake.start [] Fake.q1_bare)
       Fake.q1_bare_input "q1" (Some (Fake.arnOf "q1"))
       (api_CreateJobQueue (Fake.conn JQStatusCreating) Fake.q1_bare_input
          []).2 _ _ _)) ErrTimeout _ _).
  - vm_compute. reflexivity.
  - vm_compute. reflexivity.
  - vm_compute. reflexivity.
  - vm_compute. reflexivity.
Defined.

(** The request of Create cannot be built from a plan whose first block is
    stored the way the schema layer stores it. *)
Lemma createJobQueueInput_schema_blocks {W DefaultConfig IgnoreConfig : Type}
    (tagops : TagOps DefaultConfig IgnoreConfig)
    (meta : AWSClient W DefaultConfig IgnoreConfig)
    (name : string) (priority : Z) (state ce : string) (n : Z)
    (rest : list elem) :
  createJobQueueInput tagops meta
    (Fake.fresh (Fake.attrs name priority state (Fake.block ce n :: rest)))
  = Panic "interface conversion: interface {} is not int64".
Proof.
  unfold createJobQueueInput.
  destruct (fresh_attrs_Get name priority state (Fake.block ce n :: rest))
    as (-> & -> & _).
  cbn [assertMap assertList obind]. unfold Fake.block.
  erewrite createComputeEnvironmentOrder_int_order
    by (eapply (block_order ce n); reflexivity).
  reflexivity.
Qed.

(** C9, on the code.  On a plan whose first environment block is stored the
    way the schema layer stores it (the scenario's plan is one), Create
    never reaches its poll, whatever the service would report: the request
    cannot be built, Create panics with an empty call log, and what it
    returns is not the wait-failure error. *)
Theorem create_panics_instead_of_wait_failure
    {W DefaultConfig IgnoreConfig : Type}
    (tagops : TagOps DefaultConfig IgnoreConfig)
    (pollBudget : Z -> Z -> Z -> nat)
    (meta : AWSClient W DefaultConfig IgnoreConfig) (w : W)
    (name : string) (priority : Z) (state ce : string) (n : Z)
    (rest : list elem) :
  let s := {| world := w; trace := [];
              rd := Fake.fresh
                      (Fake.attrs name priority state (Fake.block ce n :: rest));
              sets := [] |} in
  let r := resourceAwsBatchJobQueueCreate tagops pollBudget meta s in
  (forall input, createJobQueueInput tagops meta (rd s) <> Ok input) /\
  r.1 = Panic "interface conversion: interface {} is not int64" /\
  trace r.2 = [] /\
  (forall e, r.1 <> Err (ErrWaitValid e)).
Proof.
  intros s r.
  assert (Hin := createJobQueueInput_schema_blocks tagops meta name priority
                   state ce n rest).
  assert (Hr : r = (Panic "interface conversion: interface {} is not int64", s)).
  { subst r. unfold resourceAwsBatchJobQueueCreate, bind at 1.
    cbn [rd s]. by rewrite Hin. }
  split_and!.
  - intros input. cbn [rd s]. by rewrite Hin.
  - by rewrite Hr.
  - by rewrite Hr.
  - intros e. by rewrite Hr.
Qed.

(** ** Delete *)

Section DeleteRuns.
Context {W DefaultConfig IgnoreConfig : Type}.
Variable pollBudget : Z -> Z -> Z -> nat.

Lemma disableBatchJobQueue_run (conn : BatchAPI W) jobQueue (s : St W) :
  disableBatchJobQueue pollBudget jobQueue conn s =
  let '(err, w) :=
    api_UpdateJobQueue conn (disableInput jobQueue) (world s) in
  let s0 := logCall w (EvUpdateJobQueue (disableInput jobQueue) err) s in
  match err with
  | Some e => (Err e, s0)
  | None =>
      match WaitForState pollBudget (updateStateConf conn jobQueue) s0 with
      | (Ok _, s1) => (Ok tt, s1)
      | (Err e, s1) => (Err e, s1)
      | (Panic msg, s1) => (Panic msg, s1)
      end
  end.
Proof.
  unfold disableBatchJobQueue, bind, UpdateJobQueue.
  destruct (api_UpdateJobQueue conn (disableInput jobQueue) (world s))
    as [[e|] w]; [done|].
  by destruct (WaitForState _ _ _) as [[res|e|msg] s1].
Qed.

Lemma deleteBatchJobQueue_run (conn : BatchAPI W) jobQueue (s : St W) :
  deleteBatchJobQueue pollBudget jobQueue conn s =
  let '(err, w) := api_DeleteJobQueue conn jobQueue (world s) in
  let s0 := logCall w (EvDeleteJobQueue jobQueue err) s in
  match err with
  | Some e => (Err e, s0)
  | None =>
      match WaitForState pollBudget (deleteStateConf conn jobQueue) s0 with
      | (Ok _, s1) => (Ok tt, s1)
      | (Err e, s1) => (Err e, s1)
      | (Panic msg, s1) => (Panic msg, s1)
      end
  end.
Proof.
  unfold deleteBatchJobQueue, bind, DeleteJobQueue.
  destruct (api_DeleteJobQueue conn jobQueue (world s)) as [[e|] w]; [done|].
  by destruct (WaitForState _ _ _) as [[res|e|msg] s1].
Qed.

Lemma resourceAwsBatchJobQueueDelete_run
    (meta : AWSClient W DefaultConfig IgnoreConfig) (s : St W) name :
  rd_Get "name" (rd s) = VString name ->
  resourceAwsBatchJobQueueDelete pollBudget meta s =
  match disableBatchJobQueue pollBudget name (batchconn meta) s with
  | (Ok _, s1) =>
      wrapErr (ErrDeleting name)
        (deleteBatchJobQueue pollBudget name (batchconn meta)) s1
  | (Err e, s1) => (Err (ErrDisabling name e), s1)
  | (Panic msg, s1) => (Panic msg, s1)
  end.
Proof.
  intros Hname.
  unfold resourceAwsBatchJobQueueDelete, bind, d_Get, lift.
  rewrite Hname. unfold VString. cbn [assertString].
  unfold wrapErr at 1.
  by destruct (disableBatchJobQueue _ _ _ _) as [[[]|e|msg] s1].
Qed.

(** The calls of a disable phase: the update and then lookups only. *)
Lemma disableBatchJobQueue_trace (conn : BatchAPI W) jobQueue (s s1 : St W) r :
  disableBatchJobQueue pollBudget jobQueue conn s = (r, s1) ->
  exists err polls,
    trace s1
    = trace s ++ EvUpdateJobQueue (disableInput jobQueue) err :: polls /\
    Forall (describes jobQueue) polls /\
    (r = Ok tt ->
       err = None /\
       exists before answer,
         polls = before ++ [EvDescribeJobQueues [jobQueue] answer] /\
         reportedStatus answer = Some JQStatusValid).
Proof.
  rewrite disableBatchJobQueue_run.
  destruct (api_UpdateJobQueue conn (disableInput jobQueue) (world s))
    as [[e|] w]; cbv zeta.
  - intros [= <- <-]. exists (Some e), [].
    split_and!; [done|constructor|discriminate].
  - destruct (WaitForState _ _ _) as [o s2] eqn:Hw.
    unfold WaitForState in Hw.
    apply waitLoop_run in Hw as (polls & Htr & Hall & _ & _ & Hok).
    cbn [logCall trace] in Htr. rewrite <- app_assoc in Htr.
    intros Hr. exists None, polls.
    destruct o as [res|e|msg]; inversion Hr; subst;
      (split_and!; [done|done|]); try discriminate.
    intros _. split; [done|].
    destruct (Hok res eq_refl) as (before & answer & status & -> & Hst & Hin).
    apply list_elem_of_singleton in Hin as ->. by exists before, answer.
Qed.

Lemma deleteBatchJobQueue_trace (conn : BatchAPI W) jobQueue (s s1 : St W) r :
  deleteBatchJobQueue pollBudget jobQueue conn s = (r, s1) ->
  exists err polls,
    trace s1 = trace s ++ EvDeleteJobQueue jobQueue err :: polls /\
    Forall (describes jobQueue) polls.
Proof.
  rewrite deleteBatchJobQueue_run.
  destruct (api_DeleteJobQueue conn jobQueue (world s)) as [[e|] w]; cbv zeta.
  - intros [= <- <-]. exists (Some e), []. split; [done|constructor].
  - destruct (WaitForState _ _ _) as [o s2] eqn:Hw.
    unfold WaitForState in Hw.
    apply waitLoop_run in Hw as (polls & Htr & Hall & _).
    cbn [logCall trace] in Htr. rewrite <- app_assoc in Htr.
    intros Hr. exists None, polls.
    by destruct o; inversion Hr; subst.
Qed.
End DeleteRuns.

Lemma describes_not_delete name evs :
  Forall (describes name) evs ->
  Forall (fun ev => isDeleteJobQueue ev = false) evs.
Proof. intros H. eapply Forall_impl; [exact H|]. by intros ev [r ->]. Qed.

(** C5.  A Delete of the queue [name] starts with the disable phase, whose
    first call is an [UpdateJobQueue] for [name] that sets the state
    DISABLED and nothing else.  When that phase returns normally, the calls
    so far are this call, answered without error, and lookups, the last of
    which reported VALID; the [DeleteJobQueue] call comes after them (and
    only lookups follow it).  When the disable phase fails, Delete returns
    its error, wrapped with the queue name, and no [DeleteJobQueue] is among
    the calls. *)
Theorem delete_disables_before_deleting {W DefaultConfig IgnoreConfig : Type}
    (pollBudget : Z -> Z -> Z -> nat)
    (meta : AWSClient W DefaultConfig IgnoreConfig) (s : St W)
    (name : string) :
  rd_Get "name" (rd s) = VString name ->
  let run := resourceAwsBatchJobQueueDelete pollBudget meta s in
  let disable :=
    {| ujq_ComputeEnvironmentOrder := [];
       ujq_JobQueue := Some name;
       ujq_Priority := None;
       ujq_State := Some "DISABLED" |} in
  match disableBatchJobQueue pollBudget name (batchconn meta) s with
  | (Ok _, s1) =>
      (exists polls answer,
         trace s1
         = trace s ++
           EvUpdateJobQueue disable None ::
           polls ++ [EvDescribeJobQueues [name] answer] /\
         Forall (describes name) polls /\
         reportedStatus answer = Some JQStatusValid) /\
      (exists err after,
         trace run.2 = trace s1 ++ EvDeleteJobQueue name err :: after /\
         Forall (describes name) after)
  | (Err e, s1) =>
      run = (Err (ErrDisabling name e), s1) /\
      (exists calls,
         trace run.2 = trace s ++ calls /\
         Forall (fun ev => isDeleteJobQueue ev = false) calls) /\
      (exists err polls,
         trace run.2 = trace s ++ EvUpdateJobQueue disable err :: polls /\
         Forall (describes name) polls)
  | (Panic msg, s1) =>
      run = (Panic msg, s1) /\
      (exists calls,
         trace run.2 = trace s ++ calls /\
         Forall (fun ev => isDeleteJobQueue ev = false) calls) /\
      (exists err polls,
         trace run.2 = trace s ++ EvUpdateJobQueue disable err :: polls /\
         Forall (describes name) polls)
  end.
Proof.
  intros Hname run disable. subst run.
  rewrite (resourceAwsBatchJobQueueDelete_run pollBudget meta s name Hname).
  destruct (disableBatchJobQueue pollBudget name (batchconn meta) s)
    as [o s1] eqn:Hdis.
  apply disableBatchJobQueue_trace in Hdis as (err & polls & Htr & Hall & Hok).
  assert (Hinput : disableInput name = disable) by reflexivity.
  rewrite Hinput in Htr.
  destruct o as [[]|e|msg].
  - destruct (Hok eq_refl) as (-> & before & answer & -> & Hst).
    split.
    + exists before, answer. split_and!; [done| |done].
      by apply Forall_app in Hall as [? _].
    + unfold wrapErr.
      destruct (deleteBatchJobQueue pollBudget name (batchconn meta) s1)
        as [o' s2] eqn:Hdel.
      apply deleteBatchJobQueue_trace in Hdel as (err' & after & Htr' & Hall').
      exists err', after. by destruct o'.
  - split_and!; [done| |by exists err, polls].
    eexists. split; [exact Htr|].
    constructor; [done|]. by eapply describes_not_delete.
  - split_and!; [done| |by exists err, polls].
    eexists. split; [exact Htr|].
    constructor; [done|]. by eapply describes_not_delete.
Qed.

Lemma delete_disables_before_deleting_witness :
  let s := Fake.start [Fake.q1_detail] Fake.q1_stored in
  let meta := Fake.meta JQStatusValid in
  let s1 := (disableBatchJobQueue (Fake.polls 3) "q1" (batchconn meta) s).2 in
  let run := resourceAwsBatchJobQueueDelete (Fake.polls 3) meta s in
  let disable :=
    {| ujq_ComputeEnvironmentOrder := [];
       ujq_JobQueue := Some "q1";
       ujq_Priority := None;
       ujq_State := Some "DISABLED" |} in
  rd_Get "name" (rd s) = VString "q1" /\
  (exists polls answer,
     trace s1
     = trace s ++
       EvUpdateJobQueue disable None ::
       polls ++ [EvDescribeJobQueues ["q1"] answer] /\
     Forall (describes "q1") polls /\
     reportedStatus answer = Some JQStatusValid) /\
  (exists err after,
     trace run.2 = trace s1 ++ EvDeleteJobQueue "q1" err :: after /\
     Forall (describes "q1") after).
Proof.
  split; [reflexivity|].
  exact (delete_disables_before_deleting (Fake.polls 3)
           (Fake.meta JQStatusValid)
           (Fake.start [Fake.q1_detail] Fake.q1_stored) "q1" eq_refl).
Defined.

(** * Further properties of the resource functions *)

(** ** The lookup and the refresh function *)

(** X1.  [getJobQueue] issues one [DescribeJobQueues] for the given name and
    nothing else, leaves the resource data alone and never panics.  It
    returns a queue only when the API answered exactly that one queue,
    nothing only when the API answered none, and an error only when the
    API failed or answered several queues. *)
Theorem getJobQueue_cases {W : Type} (conn : BatchAPI W) (sn : string)
    (s : St W) :
  let r := getJobQueue conn sn s in
  rd r.2 = rd s /\ sets r.2 = sets s /\
  exists resp,
    trace r.2 = trace s ++ [EvDescribeJobQueues [sn] resp] /\
    match r.1 with
    | Ok (Some q) => resp = inr [q]
    | Ok None => resp = inr []
    | Err e =>
        resp = inl e \/
        (e = ErrMultiple sn /\ exists queues,
           resp = inr queues /\ 1 < length queues)
    | Panic _ => False
    end.
Proof.
  cbv zeta. rewrite getJobQueue_run.
  destruct (api_DescribeJobQueues conn [sn] (world s)) as [resp w].
  split_and!; [by destruct resp as [e|[|q [|q' qs]]]..|].
  exists resp. split; [by destruct resp as [e|[|q [|q' qs]]]|].
  destruct resp as [e|[|q [|q' qs]]]; cbn [fst]; [by left|done|done|].
  right. split; [done|]. eexists. split; [done|]. simpl. lia.
Qed.

(** X2.  The refresh function never returns through the error outcome and
    never hands back a nil result without an error: a vanished queue gives
    the number 42 with status DELETED, a found queue gives the queue with
    its status.  With an error the result is nil and the status is
    [failed]. *)
Theorem refresh_result_shape {W : Type} (conn : BatchAPI W) (sn : string)
    (s : St W) :
  match (batchJobQueueRefreshStatusFunc conn sn s).1 with
  | Ok (res, status, None) =>
      (res = RInt 42 /\ status = JQStatusDeleted) \/
      (exists q, res = RQueue q /\ jq_Status q = Some status)
  | Ok (res, status, Some _) => res = RNil /\ status = "failed"
  | Err _ => False
  | Panic _ => True
  end.
Proof.
  rewrite refresh_run.
  destruct (api_DescribeJobQueues conn [sn] (world s)) as [resp w].
  destruct resp as [e|[|q [|q' qs]]]; cbn [fst]; [done|by left| |done].
  destruct (jq_Status q) as [status|] eqn:Hq; cbn [fst]; [|done].
  right. by exists q.
Qed.

(** ** Building the compute-environment order *)

Lemma createComputeEnvironmentOrder_from_blocks64 (l : list (string * Z)) :
  forall envs,
    createComputeEnvironmentOrder_from envs (Fake.block64 <$> l)
    = Ok (envs ++ (Fake.entry <$> l)).
Proof.
  induction l as [|[ce n] l IH]; intros envs.
  - simpl. by rewrite app_nil_r.
  - rewrite !fmap_cons.
    change (createComputeEnvironmentOrder_from envs
              (Fake.block64 (ce, n) :: (Fake.block64 <$> l)))
      with (obind (createComputeEnvironmentOrder_entry (Fake.block64 (ce, n)))
              (fun e => createComputeEnvironmentOrder_from (envs ++ [e])
                          (Fake.block64 <$> l))).
    assert (Hentry : createComputeEnvironmentOrder_entry (Fake.block64 (ce, n))
                     = Ok (Fake.entry (ce, n))).
    { unfold createComputeEnvironmentOrder_entry, Fake.block64,
        assertInt64At, assertStringAt. cbn [fst snd].
      rewrite lookup_insert_ne by done. rewrite lookup_singleton_eq.
      cbn [obind]. by rewrite lookup_insert_eq. }
    rewrite Hentry. cbn [obind]. rewrite IH, <- app_assoc. done.
Qed.

(** X3.  On blocks whose order is an [int64], the conversion returns one
    API entry per block, in the order of the blocks, each with the block's
    order and environment; the empty list gives no entry. *)
Theorem createComputeEnvironmentOrder_on_int64_blocks (l : list (string * Z)) :
  createComputeEnvironmentOrder (Fake.block64 <$> l) = Ok (Fake.entry <$> l).
Proof.
  unfold createComputeEnvironmentOrder.
  by rewrite createComputeEnvironmentOrder_from_blocks64.
Qed.

Lemma createComputeEnvironmentOrder_entry_convertible env :
  match createComputeEnvironmentOrder_entry env with
  | Ok _ => convertibleBlock env = true
  | Err _ => False
  | Panic _ => convertibleBlock env = false
  end.
Proof.
  destruct env as [sc|m]; [done|].
  unfold createComputeEnvironmentOrder_entry, convertibleBlock,
    assertInt64At, assertStringAt.
  destruct (m !! "order") as [[| | |]|]; cbn [obind]; try done.
  by destruct (m !! "compute_environment") as [[| | |]|].
Qed.

Lemma createComputeEnvironmentOrder_from_convertible order :
  forall envs,
    match createComputeEnvironmentOrder_from envs order with
    | Ok result =>
        forallb convertibleBlock order = true /\
        length result = length envs + length order
    | Err _ => False
    | Panic _ => forallb convertibleBlock order = false
    end.
Proof.
  induction order as [|env rest IH]; intros envs.
  - simpl. split; [done|lia].
  - cbn [createComputeEnvironmentOrder_from forallb].
    pose proof (createComputeEnvironmentOrder_entry_convertible env) as Henv.
    destruct (createComputeEnvironmentOrder_entry env) as [e| |];
      cbn [obind]; [|done|by rewrite Henv].
    rewrite Henv. cbn [andb]. specialize (IH (envs ++ [e])).
    destruct (createComputeEnvironmentOrder_from (envs ++ [e]) rest);
      [|done|done].
    destruct IH as [? Hlen]. split; [done|].
    rewrite length_app in Hlen. simpl in *. lia.
Qed.

(** X4.  [createComputeEnvironmentOrder] returns exactly when every element
    is a map with an [int64] order and a string environment, and then with
    as many entries as elements; in every other case it panics.  It has no
    error return. *)
Theorem createComputeEnvironmentOrder_returns_iff_convertible
    (order : list elem) :
  match createComputeEnvironmentOrder order with
  | Ok result =>
      forallb convertibleBlock order = true /\ length result = length order
  | Err _ => False
  | Panic _ => forallb convertibleBlock order = false
  end.
Proof.
  unfold createComputeEnvironmentOrder.
  pose proof (createComputeEnvironmentOrder_from_convertible order []) as H.
  by destruct (createComputeEnvironmentOrder_from [] order).
Qed.

(** ** The sort of Read *)

(** X5.  The list Read works on after the sort holds the entries the API
    returned, each as often as before, in ascending order of the order
    field, a nil order counting as 0. *)
Theorem sortSlice_sorted_permutation (l : list ComputeEnvironmentOrder) :
  StronglySorted orderLe (sortSlice l) /\
  sortSlice l ≡ₚ l /\
  length (sortSlice l) = length l.
Proof.
  split_and!; [apply sortSlice_sorted|apply sortSlice_perm|].
  by rewrite sortSlice_perm.
Qed.

Lemma insertion_loop_on_sorted l :
  forall acc,
    StronglySorted orderLe (rev acc ++ l) ->
    fold_left (fun rprefix x => bubble x rprefix) l acc = rev l ++ acc.
Proof.
  induction l as [|x l IH]; intros acc Hs; [done|].
  cbn [fold_left].
  assert (Hb : bubble x acc = x :: acc).
  { destruct acc as [|y acc]; [done|]. cbn [bubble].
    simpl in Hs. rewrite <- app_assoc in Hs.
    apply StronglySorted_app_1_r in Hs. simpl in Hs.
    apply StronglySorted_inv in Hs as [_ Hy].
    apply Forall_inv in Hy. unfold orderLe, orderOf in Hy.
    unfold lessOrder. by rewrite (proj2 (Z.ltb_ge _ _) Hy). }
  rewrite Hb, IH.
  - simpl. by rewrite <- app_assoc.
  - simpl. by rewrite <- app_assoc.
Qed.

(** X6.  A list the API already returns in ascending order comes out of the
    sort unchanged, entries with equal orders included. *)
Theorem sortSlice_keeps_ascending (l : list ComputeEnvironmentOrder) :
  StronglySorted orderLe l -> sortSlice l = l.
Proof.
  intros Hs. unfold sortSlice.
  rewrite insertion_loop_on_sorted by done.
  by rewrite app_nil_r, rev_involutive.
Qed.

Lemma sortSlice_keeps_ascending_witness :
  sortSlice (Fake.entry <$> [("b", 0%Z); ("a", 1%Z); ("c", 1%Z)])
  = Fake.entry <$> [("b", 0%Z); ("a", 1%Z); ("c", 1%Z)].
Proof.
  apply sortSlice_keeps_ascending.
  repeat constructor; unfold orderLe, orderOf; simpl; lia.
Defined.

(** ** Read, Import *)

Lemma Schema_arn : Schema !! "arn" = Some TypeString.
Proof. vm_compute. reflexivity. Qed.

Lemma rd_Set_arn (p : option string) d :
  (rd_Set "arn" (stringPtrValue p) d).1 = None /\
  rd_Get "arn" (rd_Set "arn" (stringPtrValue p) d).2
  = VString (StringValue p).
Proof.
  unfold rd_Set, rd_Get. rewrite Schema_arn.
  destruct p as [a|]; cbn [stringPtrValue writeAs VString VNil fst snd rd_set];
    by rewrite lookup_insert_eq.
Qed.

(** X7.  For an existing queue Read stores the queue's ARN under [arn] and
    then stops with the error of the refused write of
    [compute_environments]: the identifier and every attribute other than
    [arn] read as before, so name, priority, state and tags are never
    refreshed from the API. *)
Theorem read_existing_stops_after_arn {W DefaultConfig IgnoreConfig : Type}
    (tagops : TagOps DefaultConfig IgnoreConfig)
    (meta : AWSClient W DefaultConfig IgnoreConfig) (s : St W)
    (jq : JobQueueDetail) (w : W) :
  api_DescribeJobQueues (batchconn meta) [rd_id (rd s)] (world s)
    = (inr [jq], w) ->
  let r := resourceAwsBatchJobQueueRead tagops meta s in
  r.1 = Err (ErrSetComputeEnvironments
               (ErrInvalidAddress "compute_environments")) /\
  rd_id (rd r.2) = rd_id (rd s) /\
  rd_Get "arn" (rd r.2) = VString (StringValue (jq_JobQueueArn jq)) /\
  (forall key, key <> "arn" -> rd_Get key (rd r.2) = rd_Get key (rd s)).
Proof.
  intros Hd r. subst r. rewrite resourceAwsBatchJobQueueRead_run.
  cbv zeta. rewrite Hd. cbn [fst snd rd].
  split_and!; [done| |apply rd_Set_arn|].
  - by destruct (rd_Set_frame "arn" (stringPtrValue (jq_JobQueueArn jq))
                   (rd s) "") as (_ & _ & -> & _).
  - intros key Hkey.
    destruct (rd_Set_frame "arn" (stringPtrValue (jq_JobQueueArn jq))
                (rd s) key) as (_ & Hpl & _ & Hset); [done|].
    by apply rd_Get_frame.
Qed.

Lemma read_existing_stops_after_arn_witness :
  let r := resourceAwsBatchJobQueueRead Fake.tagops (Fake.meta JQStatusValid)
             (Fake.start [Fake.q1_detail] Fake.q1_stored) in
  r.1 = Err (ErrSetComputeEnvironments
               (ErrInvalidAddress "compute_environments")) /\
  rd_id (rd r.2) = Fake.arnOf "q1" /\
  rd_Get "arn" (rd r.2) = VString (Fake.arnOf "q1") /\
  (forall key, key <> "arn" -> rd_Get key (rd r.2) = rd_Get key Fake.q1_stored).
Proof.
  refine (read_existing_stops_after_arn Fake.tagops (Fake.meta JQStatusValid)
            (Fake.start [Fake.q1_detail] Fake.q1_stored)
            Fake.q1_detail [Fake.q1_detail] _).
  vm_compute. reflexivity.
Defined.

(** X8.  Whatever it finds, Read issues exactly one API call, a
    [DescribeJobQueues] for the stored identifier.  When that call fails,
    Read returns the API's error as it is and leaves the resource data
    untouched. *)
Theorem read_issues_one_lookup {W DefaultConfig IgnoreConfig : Type}
    (tagops : TagOps DefaultConfig IgnoreConfig)
    (meta : AWSClient W DefaultConfig IgnoreConfig) (s : St W) :
  let r := resourceAwsBatchJobQueueRead tagops meta s in
  exists resp,
    trace r.2 = trace s ++ [EvDescribeJobQueues [rd_id (rd s)] resp] /\
    match resp with
    | inl e => r.1 = Err e /\ rd r.2 = rd s /\ sets r.2 = sets s
    | inr _ => True
    end.
Proof.
  cbv zeta. rewrite resourceAwsBatchJobQueueRead_run. cbv zeta.
  destruct (api_DescribeJobQueues (batchconn meta) [rd_id (rd s)] (world s))
    as [resp w].
  exists resp. by destruct resp as [e|[|q [|q' qs]]].
Qed.

(** X9.  The importer makes no API call and keeps the identifier; after it
    the attribute [arn] reads as the identifier. *)
Theorem import_seeds_arn {W : Type} (s : St W) :
  let r := resourceAwsBatchJobQueueImport s in
  r.1 = Ok tt /\
  trace r.2 = trace s /\ world r.2 = world s /\
  rd_id (rd r.2) = rd_id (rd s) /\
  rd_Get "arn" (rd r.2) = VString (rd_id (rd s)).
Proof.
  cbv zeta.
  unfold resourceAwsBatchJobQueueImport, bind, d_Id, d_Set, ret.
  cbn [rd].
  destruct (rd_Set "arn" (VString (rd_id (rd s))) (rd s)) as [e d'] eqn:Hset.
  cbn [fst snd trace world rd].
  pose proof (rd_Set_arn (Some (rd_id (rd s))) (rd s)) as [_ Hget].
  pose proof (rd_Set_frame "arn" (VString (rd_id (rd s))) (rd s) "")
    as (_ & _ & Hid & _); [done|].
  cbn [stringPtrValue StringValue default] in Hget.
  rewrite Hset in Hget, Hid. done.
Qed.

(** ** Create *)

(** X10.  When the create call fails, Create returns the API's error with
    the queue name, right after that one call: it does not poll, does not
    set the identifier and writes no attribute. *)
Theorem create_call_failure {W DefaultConfig IgnoreConfig : Type}
    (tagops : TagOps DefaultConfig IgnoreConfig)
    (pollBudget : Z -> Z -> Z -> nat)
    (meta : AWSClient W DefaultConfig IgnoreConfig) (s : St W)
    (input : CreateJobQueueInput) (name : string) (e : error) (w : W) :
  createJobQueueInput tagops meta (rd s) = Ok input ->
  rd_Get "name" (rd s) = VString name ->
  api_CreateJobQueue (batchconn meta) input (world s) = (inl e, w) ->
  resourceAwsBatchJobQueueCreate tagops pollBudget meta s
  = (Err (ErrCreate e name),
     {| world := w;
        trace := trace s ++ [EvCreateJobQueue input (inl e)];
        rd := rd s; sets := sets s |}).
Proof.
  intros Hin Hname Hcall.
  unfold resourceAwsBatchJobQueueCreate, bind, d_Get, lift, CreateJobQueue.
  rewrite Hin, Hname. unfold VString. cbn [assertString].
  by rewrite Hcall.
Qed.

Lemma create_call_failure_witness :
  resourceAwsBatchJobQueueCreate Fake.tagops (Fake.polls 2)
    (Fake.meta JQStatusValid) (Fake.start [Fake.q1_detail] Fake.q1_bare)
  = (Err (ErrCreate (ErrAPI "ClientException: Object already exists") "q1"),
     {| world := [Fake.q1_detail];
        trace := [EvCreateJobQueue Fake.q1_bare_input
                    (inl (ErrAPI "ClientException: Object already exists"))];
        rd := Fake.q1_bare; sets := [] |}).
Proof.
  refine (create_call_failure Fake.tagops (Fake.polls 2)
            (Fake.meta JQStatusValid) (Fake.start [Fake.q1_detail] Fake.q1_bare)
            Fake.q1_bare_input "q1"
            (ErrAPI "ClientException: Object already exists")
            [Fake.q1_detail] _ _ _).
  - vm_compute. reflexivity.
  - vm_compute. reflexivity.
  - vm_compute. reflexivity.
Defined.

Lemma read_calls_are_lookups {W DefaultConfig IgnoreConfig : Type}
    (tagops : TagOps DefaultConfig IgnoreConfig)
    (meta : AWSClient W DefaultConfig IgnoreConfig) (s : St W) :
  exists calls,
    trace (resourceAwsBatchJobQueueRead tagops meta s).2 = trace s ++ calls /\
    Forall (fun ev => isDescribeJobQueues ev = true) calls.
Proof.
  rewrite resourceAwsBatchJobQueueRead_run. cbv zeta.
  destruct (api_DescribeJobQueues (batchconn meta) [rd_id (rd s)] (world s))
    as [resp w].
  exists [EvDescribeJobQueues [rd_id (rd s)] resp].
  split; [by destruct resp as [e|[|q [|q' qs]]]|by repeat constructor].
Qed.

Lemma describes_are_lookups name evs :
  Forall (describes name) evs ->
  Forall (fun ev => isDescribeJobQueues ev = true) evs.
Proof. intros H. eapply Forall_impl; [exact H|]. by intros ev [r ->]. Qed.

(** X11.  The calls of a Create are either none at all (the request could
    not be built) or one [CreateJobQueue] followed by lookups only: Create
    issues no second create call and never updates, deletes or tags. *)
Theorem create_calls_shape {W DefaultConfig IgnoreConfig : Type}
    (tagops : TagOps DefaultConfig IgnoreConfig)
    (pollBudget : Z -> Z -> Z -> nat)
    (meta : AWSClient W DefaultConfig IgnoreConfig) (s : St W) :
  let r := resourceAwsBatchJobQueueCreate tagops pollBudget meta s in
  trace r.2 = trace s \/
  exists input answer lookups,
    trace r.2 = trace s ++ EvCreateJobQueue input answer :: lookups /\
    Forall (fun ev => isDescribeJobQueues ev = true) lookups.
Proof.
  cbv zeta.
  unfold resourceAwsBatchJobQueueCreate, bind, d_Get, lift, CreateJobQueue,
    wrapErr, d_SetId.
  destruct (createJobQueueInput tagops meta (rd s)) as [input|e|msg];
    [|by left|by left].
  destruct (assertString (rd_Get "name" (rd s))) as [name|e|msg];
    [|by left|by left].
  right.
  destruct (api_CreateJobQueue (batchconn meta) input (world s))
    as [answer w].
  exists input, answer.
  destruct answer as [e|arn].
  { exists []. split; [done|constructor]. }
  destruct (WaitForState pollBudget (createStateConf (batchconn meta) name)
              (logCall w (EvCreateJobQueue input (inr arn)) s))
    as [o s2] eqn:Hw.
  unfold WaitForState in Hw.
  apply waitLoop_run in Hw as (polls & Htr & Hall & _).
  cbn [logCall trace] in Htr. rewrite <- app_assoc in Htr.
  apply describes_are_lookups in Hall.
  destruct o as [res|e|msg]; [|by exists polls|by exists polls].
  destruct (read_calls_are_lookups tagops meta
              (withRd (rd_SetId (StringValue arn)) s2))
    as (calls & Htr' & Hall').
  exists (polls ++ calls). split; [|by apply Forall_app].
  rewrite Htr'. cbn [withRd trace]. rewrite Htr, <- app_assoc. done.
Qed.

(** ** Update *)

Lemma lookups_not_update evs :
  Forall (fun ev => isDescribeJobQueues ev = true) evs ->
  Forall (fun ev => isUpdateJobQueue ev = false) evs.
Proof. intros H. eapply Forall_impl; [exact H|]. by intros []. Qed.

(** X12.  With priority and state unchanged, Update issues no
    [UpdateJobQueue], whether or not the tags changed; the
    compute-environment order plays no part in the decision. *)
Theorem update_without_priority_or_state_change
    {W DefaultConfig IgnoreConfig : Type}
    (tagops : TagOps DefaultConfig IgnoreConfig)
    (pollBudget : Z -> Z -> Z -> nat)
    (meta : AWSClient W DefaultConfig IgnoreConfig) (s : St W) :
  rd_HasChange "priority" (rd s) = false ->
  rd_HasChange "state" (rd s) = false ->
  exists calls,
    trace (resourceAwsBatchJobQueueUpdate tagops pollBudget meta s).2
    = trace s ++ calls /\
    Forall (fun ev => isUpdateJobQueue ev = false) calls.
Proof.
  intros Hp Hs.
  destruct (rd_HasChange "tags_all" (rd s)) eqn:Ht.
  - destruct (assertString (rd_Get "arn" (rd s))) as [arn|e|msg] eqn:Harn.
    + assert (Hget : rd_Get "arn" (rd s) = VString arn).
      { unfold assertString in Harn.
        destruct (rd_Get "arn" (rd s)) as [[| | |a]| | |]; try done.
        by inversion Harn. }
      destruct (update_tags_only tagops pollBudget meta s arn Hp Hs Ht Hget)
        as (r & rest & Htr & Hall).
      eexists. split; [exact Htr|]. by constructor.
    + unfold assertString in Harn.
      by destruct (rd_Get "arn" (rd s)) as [[| | |a]| | |].
    + exists []. rewrite app_nil_r. split; [|constructor].
      unfold resourceAwsBatchJobQueueUpdate, bind, d_HasChanges, d_HasChange,
        ret, d_GetChange, d_Get, lift.
      rewrite HasChanges_guard, Hp, Hs. cbn [orb]. rewrite Ht.
      destruct (rd_GetChange "tags_all" (rd s)) as [o n].
      by rewrite Harn.
  - rewrite update_without_changes_is_read by done.
    destruct (read_calls_are_lookups tagops meta s) as (calls & Htr & Hall).
    exists calls. split; [done|]. by apply lookups_not_update.
Qed.

Lemma update_without_priority_or_state_change_witness :
  exists calls,
    trace (resourceAwsBatchJobQueueUpdate Fake.tagops (Fake.polls 2)
             (Fake.meta JQStatusValid)
             (Fake.start [Fake.q1_detail] Fake.q1_replanned)).2
    = trace (Fake.start [Fake.q1_detail] Fake.q1_replanned) ++ calls /\
    Forall (fun ev => isUpdateJobQueue ev = false) calls.
Proof.
  apply (update_without_priority_or_state_change Fake.tagops (Fake.polls 2)
           (Fake.meta JQStatusValid)
           (Fake.start [Fake.q1_detail] Fake.q1_replanned)).
  - vm_compute. reflexivity.
  - vm_compute. reflexivity.
Defined.

(** X13.  When the guarded update call fails, Update returns the API's
    error as it is (no wrapping, unlike Create) right after that call: no
    poll, no tag update and no read follow. *)
Theorem update_call_failure {W DefaultConfig IgnoreConfig : Type}
    (tagops : TagOps DefaultConfig IgnoreConfig)
    (pollBudget : Z -> Z -> Z -> nat)
    (meta : AWSClient W DefaultConfig IgnoreConfig) (s : St W)
    (name : string) (input : UpdateJobQueueInput) (e : error) (w : W) :
  rd_HasChange "priority" (rd s) || rd_HasChange "state" (rd s) = true ->
  rd_Get "name" (rd s) = VString name ->
  updateJobQueueInput name (rd s) = Ok input ->
  api_UpdateJobQueue (batchconn meta) input (world s) = (Some e, w) ->
  resourceAwsBatchJobQueueUpdate tagops pollBudget meta s
  = (Err e,
     {| world := w;
        trace := trace s ++ [EvUpdateJobQueue input (Some e)];
        rd := rd s; sets := sets s |}).
Proof.
  intros Hch Hname Hin Hcall.
  unfold resourceAwsBatchJobQueueUpdate, bind, d_HasChanges, d_Get, lift,
    UpdateJobQueue.
  rewrite HasChanges_guard, Hch, Hname. unfold VString. cbn [assertString].
  by rewrite Hin, Hcall.
Qed.

Lemma update_call_failure_witness :
  resourceAwsBatchJobQueueUpdate Fake.tagops (Fake.polls 2)
    (Fake.meta JQStatusValid) (Fake.start [] Fake.q1_reprioritized)
  = (Err (ErrAPI "ClientException: queue does not exist"),
     {| world := [];
        trace := [EvUpdateJobQueue
                    {| ujq_ComputeEnvironmentOrder := [];
                       ujq_JobQueue := Some "q1";
                       ujq_Priority := Some 2%Z;
                       ujq_State := Some JQStateEnabled |}
                    (Some (ErrAPI "ClientException: queue does not exist"))];
        rd := Fake.q1_reprioritized; sets := [] |}).
Proof.
  refine (update_call_failure Fake.tagops (Fake.polls 2)
            (Fake.meta JQStatusValid) (Fake.start [] Fake.q1_reprioritized)
            "q1" _ _ [] _ _ _ _).
  - vm_compute. reflexivity.
  - vm_compute. reflexivity.
  - vm_compute. reflexivity.
  - vm_compute. reflexivity.
Defined.

(** X14.  When the tag update fails, Update returns the tag-update error
    around the helper's error and stops: the final Read is not run.  The
    helper is called with the stored [arn] and the old and new values of
    [tags_all]. *)
Theorem update_tags_failure {W DefaultConfig IgnoreConfig : Type}
    (tagops : TagOps DefaultConfig IgnoreConfig)
    (pollBudget : Z -> Z -> Z -> nat)
    (meta : AWSClient W DefaultConfig IgnoreConfig) (s : St W)
    (arn : string) (e : error) (w : W) :
  rd_HasChange "priority" (rd s) = false ->
  rd_HasChange "state" (rd s) = false ->
  rd_HasChange "tags_all" (rd s) = true ->
  rd_Get "arn" (rd s) = VString arn ->
  api_UpdateTags (batchconn meta) arn (rd_GetChange "tags_all" (rd s)).1
    (rd_GetChange "tags_all" (rd s)).2 (world s) = (Some e, w) ->
  resourceAwsBatchJobQueueUpdate tagops pollBudget meta s
  = (Err (ErrUpdateTags e),
     {| world := w;
        trace := trace s ++
                 [EvUpdateTags arn (rd_GetChange "tags_all" (rd s)).1
                    (rd_GetChange "tags_all" (rd s)).2 (Some e)];
        rd := rd s; sets := sets s |}).
Proof.
  intros Hp Hs Ht Harn Hcall.
  unfold resourceAwsBatchJobQueueUpdate, bind, d_HasChanges, d_HasChange, ret,
    d_GetChange, d_Get, lift, BatchUpdateTags.
  rewrite HasChanges_guard, Hp, Hs. cbn [orb]. rewrite Ht.
  destruct (rd_GetChange "tags_all" (rd s)) as [o n]. rewrite Harn.
  unfold VString. cbn [assertString fst snd] in *.
  by rewrite Hcall.
Qed.

Lemma update_tags_failure_witness :
  (resourceAwsBatchJobQueueUpdate Fake.tagops (Fake.polls 2)
     (Fake.refusingMeta JQStatusValid)
     (Fake.start [Fake.q1_detail] Fake.q1_retagged)).1
  = Err (ErrUpdateTags Fake.refusal).
Proof.
  refine (f_equal fst
    (update_tags_failure Fake.tagops (Fake.polls 2)
       (Fake.refusingMeta JQStatusValid)
       (Fake.start [Fake.q1_detail] Fake.q1_retagged)
       (Fake.arnOf "q1") Fake.refusal [Fake.q1_detail] _ _ _ _ _)).
  - vm_compute. reflexivity.
  - vm_compute. reflexivity.
  - vm_compute. reflexivity.
  - vm_compute. reflexivity.
  - vm_compute. reflexivity.
Defined.

(** ** Delete *)

Section DeletePhases.
Context {W : Type}.
Variable pollBudget : Z -> Z -> Z -> nat.

Lemma WaitForState_frame (conn : BatchAPI W) sn pending target t dl mt
    (s s' : St W) r :
  WaitForState pollBudget
    {| Pending := pending; Target := target;
       Refresh := batchJobQueueRefreshStatusFunc conn sn;
       Timeout := t; Delay := dl; MinTimeout := mt |} s = (r, s') ->
  rd s' = rd s /\ sets s' = sets s.
Proof.
  unfold WaitForState. intros Hw.
  by apply waitLoop_run in Hw as (polls & _ & _ & ? & ? & _).
Qed.

Lemma disableBatchJobQueue_frame (conn : BatchAPI W) jobQueue (s : St W) :
  rd (disableBatchJobQueue pollBudget jobQueue conn s).2 = rd s /\
  sets (disableBatchJobQueue pollBudget jobQueue conn s).2 = sets s.
Proof.
  rewrite disableBatchJobQueue_run.
  destruct (api_UpdateJobQueue conn (disableInput jobQueue) (world s))
    as [[e|] w]; cbv zeta; [done|].
  destruct (WaitForState _ _ _) as [o s1] eqn:Hw.
  apply WaitForState_frame in Hw. by destruct o.
Qed.

Lemma deleteBatchJobQueue_frame (conn : BatchAPI W) jobQueue (s : St W) :
  rd (deleteBatchJobQueue pollBudget jobQueue conn s).2 = rd s /\
  sets (deleteBatchJobQueue pollBudget jobQueue conn s).2 = sets s.
Proof.
  rewrite deleteBatchJobQueue_run.
  destruct (api_DeleteJobQueue conn jobQueue (world s)) as [[e|] w];
    cbv zeta; [done|].
  destruct (WaitForState _ _ _) as [o s1] eqn:Hw.
  apply WaitForState_frame in Hw. by destruct o.
Qed.

Lemma deleteBatchJobQueue_ok (conn : BatchAPI W) jobQueue (s s1 : St W) :
  deleteBatchJobQueue pollBudget jobQueue conn s = (Ok tt, s1) ->
  exists polls answer,
    trace s1
    = trace s ++ EvDeleteJobQueue jobQueue None ::
      polls ++ [EvDescribeJobQueues [jobQueue] answer] /\
    reportedStatus answer = Some JQStatusDeleted.
Proof.
  rewrite deleteBatchJobQueue_run.
  destruct (api_DeleteJobQueue conn jobQueue (world s)) as [[e|] w];
    cbv zeta; [done|].
  destruct (WaitForState _ _ _) as [o s2] eqn:Hw.
  unfold WaitForState in Hw.
  apply waitLoop_run in Hw as (polls & Htr & _ & _ & _ & Hok).
  cbn [logCall trace] in Htr. rewrite <- app_assoc in Htr.
  destruct o as [res|e|msg]; [|done|done].
  intros [= <-].
  destruct (Hok res eq_refl) as (before & answer & status & -> & Hst & Hin).
  apply list_elem_of_singleton in Hin as ->. by exists before, answer.
Qed.
End DeletePhases.

(** X15.  Delete returns success only when its last call is a lookup of the
    queue that reported DELETED: either no queue came back or the one that
    did has that status. *)
Theorem delete_success_observes_deleted {W DefaultConfig IgnoreConfig : Type}
    (pollBudget : Z -> Z -> Z -> nat)
    (meta : AWSClient W DefaultConfig IgnoreConfig) (s : St W)
    (name : string) :
  rd_Get "name" (rd s) = VString name ->
  (resourceAwsBatchJobQueueDelete pollBudget meta s).1 = Ok tt ->
  exists before answer,
    trace (resourceAwsBatchJobQueueDelete pollBudget meta s).2
    = trace s ++ before ++ [EvDescribeJobQueues [name] answer] /\
    reportedStatus answer = Some JQStatusDeleted.
Proof.
  intros Hname.
  rewrite (resourceAwsBatchJobQueueDelete_run pollBudget meta s name Hname).
  destruct (disableBatchJobQueue pollBudget name (batchconn meta) s)
    as [o s1] eqn:Hdis.
  apply disableBatchJobQueue_trace in Hdis as (err & polls & Htr & _).
  destruct o as [[]|e|msg]; [|done|done].
  unfold wrapErr.
  destruct (deleteBatchJobQueue pollBudget name (batchconn meta) s1)
    as [o' s2] eqn:Hdel.
  destruct o' as [[]|e|msg]; [|done|done].
  intros _. apply deleteBatchJobQueue_ok in Hdel
    as (polls' & answer & Htr' & Hst).
  exists (EvUpdateJobQueue (disableInput name) err :: polls ++
          EvDeleteJobQueue name None :: polls'), answer.
  split; [|done]. cbn [snd]. rewrite Htr', Htr.
  rewrite <- !app_assoc. simpl. by rewrite <- app_assoc.
Qed.

Lemma delete_success_observes_deleted_witness :
  exists before answer,
    trace (resourceAwsBatchJobQueueDelete (Fake.polls 3)
             (Fake.meta JQStatusValid)
             (Fake.start [Fake.q1_detail] Fake.q1_stored)).2
    = trace (Fake.start [Fake.q1_detail] Fake.q1_stored) ++
      before ++ [EvDescribeJobQueues ["q1"] answer] /\
    reportedStatus answer = Some JQStatusDeleted.
Proof.
  apply (delete_success_observes_deleted (Fake.polls 3)
           (Fake.meta JQStatusValid)
           (Fake.start [Fake.q1_detail] Fake.q1_stored) "q1").
  - vm_compute. reflexivity.
  - vm_compute. reflexivity.
Defined.

(** X16.  Delete never touches the resource data: whatever happens, the
    identifier, the stored attributes and the write log are the same after
    it as before.  In particular it does not clear the identifier. *)
Theorem delete_keeps_resource_data {W DefaultConfig IgnoreConfig : Type}
    (pollBudget : Z -> Z -> Z -> nat)
    (meta : AWSClient W DefaultConfig IgnoreConfig) (s : St W) :
  rd (resourceAwsBatchJobQueueDelete pollBudget meta s).2 = rd s /\
  sets (resourceAwsBatchJobQueueDelete pollBudget meta s).2 = sets s.
Proof.
  destruct (assertString (rd_Get "name" (rd s))) as [name|e|msg] eqn:Hname.
  - assert (Hget : rd_Get "name" (rd s) = VString name).
    { unfold assertString in Hname.
      destruct (rd_Get "name" (rd s)) as [[| | |a]| | |]; try done.
      by inversion Hname. }
    rewrite (resourceAwsBatchJobQueueDelete_run pollBudget meta s name Hget).
    pose proof (disableBatchJobQueue_frame pollBudget (batchconn meta) name s)
      as [Hrd Hsets].
    destruct (disableBatchJobQueue pollBudget name (batchconn meta) s)
      as [o s1].
    cbn [snd] in Hrd, Hsets.
    destruct o as [[]|e|msg]; [|done|done].
    unfold wrapErr.
    pose proof (deleteBatchJobQueue_frame pollBudget (batchconn meta) name s1)
      as [Hrd' Hsets'].
    destruct (deleteBatchJobQueue pollBudget name (batchconn meta) s1)
      as [o' s2].
    cbn [snd] in Hrd', Hsets'.
    destruct o'; cbn [snd]; by rewrite Hrd', Hsets'.
  - unfold assertString in Hname.
    by destruct (rd_Get "name" (rd s)) as [[| | |a]| | |].
  - unfold resourceAwsBatchJobQueueDelete, bind, d_Get, lift.
    by rewrite Hname.
Qed.

(** X17.  When the disable phase went through and the delete call fails,
    Delete returns the delete error around the API's error, with the queue
    name, right after that call: no lookup follows it. *)
Theorem delete_call_failure {W DefaultConfig IgnoreConfig : Type}
    (pollBudget : Z -> Z -> Z -> nat)
    (meta : AWSClient W DefaultConfig IgnoreConfig) (s s1 : St W)
    (name : string) (e : error) (w : W) :
  rd_Get "name" (rd s) = VString name ->
  disableBatchJobQueue pollBudget name (batchconn meta) s = (Ok tt, s1) ->
  api_DeleteJobQueue (batchconn meta) name (world s1) = (Some e, w) ->
  resourceAwsBatchJobQueueDelete pollBudget meta s
  = (Err (ErrDeleting name e),
     logCall w (EvDeleteJobQueue name (Some e)) s1).
Proof.
  intros Hname Hdis Hcall.
  rewrite (resourceAwsBatchJobQueueDelete_run pollBudget meta s name Hname).
  rewrite Hdis. unfold wrapErr. rewrite deleteBatchJobQueue_run.
  by rewrite Hcall.
Qed.

Lemma delete_call_failure_witness :
  (resourceAwsBatchJobQueueDelete (Fake.polls 3)
     (Fake.refusingMeta JQStatusValid)
     (Fake.start [Fake.q1_detail] Fake.q1_stored)).1
  = Err (ErrDeleting "q1" Fake.refusal).
Proof.
  refine (f_equal fst
    (delete_call_failure (Fake.polls 3) (Fake.refusingMeta JQStatusValid)
       (Fake.start [Fake.q1_detail] Fake.q1_stored)
       (disableBatchJobQueue (Fake.polls 3) "q1"
          (Fake.refusingConn JQStatusValid)
          (Fake.start [Fake.q1_detail] Fake.q1_stored)).2
       "q1" Fake.refusal
       [Fake.updated (disableInput "q1") Fake.q1_detail] _ _ _)).
  - vm_compute. reflexivity.
  - vm_compute. reflexivity.
  - vm_compute. reflexivity.
Defined.

(** X18.  The poll after the delete call waits only through the statuses
    DISABLED and DELETING.  If the first lookup after an accepted delete
    call still finds the queue with any other status than DELETED (VALID,
    for one), Delete fails with the unexpected-status error, wrapped as a
    delete error. *)
Theorem delete_rejects_lingering_status {W DefaultConfig IgnoreConfig : Type}
    (pollBudget : Z -> Z -> Z -> nat)
    (meta : AWSClient W DefaultConfig IgnoreConfig) (s s1 : St W)
    (name : string) (w w' : W) (q : JobQueueDetail) (status : string)
    (budget : nat) :
  rd_Get "name" (rd s) = VString name ->
  disableBatchJobQueue pollBudget name (batchconn meta) s = (Ok tt, s1) ->
  api_DeleteJobQueue (batchconn meta) name (world s1) = (None, w) ->
  pollBudget (10 * Minute)%Z (10 * Second)%Z (3 * Second)%Z = S budget ->
  api_DescribeJobQueues (batchconn meta) [name] w = (inr [q], w') ->
  jq_Status q = Some status ->
  status ∉ [JQStatusDeleted; JQStateDisabled; JQStatusDeleting] ->
  (resourceAwsBatchJobQueueDelete pollBudget meta s).1
  = Err (ErrDeleting name (ErrUnexpectedState status)).
Proof.
  intros Hname Hdis Hcall Hbudget Hd Hq Hst.
  rewrite (resourceAwsBatchJobQueueDelete_run pollBudget meta s name Hname).
  rewrite Hdis. unfold wrapErr. rewrite deleteBatchJobQueue_run.
  rewrite Hcall. cbv zeta. unfold WaitForState.
  cbn [deleteStateConf Timeout Delay MinTimeout]. rewrite Hbudget.
  cbn [waitLoop]. unfold bind. fold (deleteStateConf (batchconn meta) name).
  unfold deleteStateConf at 1. cbn [Refresh].
  rewrite refresh_run. cbn [logCall world]. rewrite Hd, Hq.
  unfold deleteStateConf at 1 2. cbn [Target Pending]. unfold inStatuses.
  rewrite !bool_decide_eq_false_2; [done| |].
  - intros Hin. apply Hst. by do 1 right.
  - intros Hin. apply Hst. apply list_elem_of_singleton in Hin as ->. by left.
Qed.

Lemma delete_rejects_lingering_status_witness :
  (resourceAwsBatchJobQueueDelete (Fake.polls 3)
     (Fake.lingeringMeta JQStatusValid)
     (Fake.start [Fake.q1_detail] Fake.q1_stored)).1
  = Err (ErrDeleting "q1" (ErrUnexpectedState JQStatusValid)).
Proof.
  refine (delete_rejects_lingering_status (Fake.polls 3)
            (Fake.lingeringMeta JQStatusValid)
            (Fake.start [Fake.q1_detail] Fake.q1_stored)
            (disableBatchJobQueue (Fake.polls 3) "q1"
               (Fake.lingeringConn JQStatusValid)
               (Fake.start [Fake.q1_detail] Fake.q1_stored)).2
            "q1"
            [Fake.updated (disableInput "q1") Fake.q1_detail]
            [Fake.updated (disableInput "q1") Fake.q1_detail]
            (Fake.updated (disableInput "q1") Fake.q1_detail)
            JQStatusValid 2 _ _ _ _ _ _ _).
  - vm_compute. reflexivity.
  - vm_compute. reflexivity.
  - vm_compute. reflexivity.
  - reflexivity.
  - vm_compute. reflexivity.
  - reflexivity.
  - intros H. repeat (apply elem_of_cons in H as [H|H]; [discriminate|]).
    by apply elem_of_nil in H.
Defined.
